(** * AtlasWriter: coordinate mapping of combined locus segments

    A shallow embedding of [atlas_writer-5.py] (class [AtlasWriter] and the
    combine mode of [main]) together with the properties of its selection
    parser, its coordinate translations, its truncation step and its
    polyA tail step, of [load_segments] on the text of a file and of
    [format_fasta].

    Python integers are unbounded and are modelled by [Z]; Python strings
    are modelled by lists of characters whose code points are below 256;
    the dictionary [self.segment_data] is a [gmap Z segment].  A call of
    [sys.exit] and an uncaught exception are the two abnormal outcomes of
    a method. *)

From Stdlib Require Import ZArith Ascii String List Lia DecimalString DecimalPos.
From stdpp Require Import base decidable option list sorting gmap.

Local Open Scope Z_scope.

(** ** Python strings and the builtins the program uses *)

Module Py.

Abbreviation str := (list ascii).

(** A string literal of the source. *)
Definition lit (s : string) : str := list_ascii_of_string s.

Definition code (c : ascii) : Z := Z.of_N (N_of_ascii c).

(** [len(s)] *)
Definition len {A} (s : list A) : Z := Z.of_nat (length s).

(** [c in s] for a one-character string [c]. *)
Definition contains (c : ascii) (s : str) : bool := existsb (Ascii.eqb c) s.

(** [s.split(sep)] for a one-character separator, the only form the
    program uses.  The result is never empty: [''.split(',') == ['']]. *)
Fixpoint split (sep : ascii) (s : str) : list str :=
  match s with
  | [] => [[]]
  | c :: s' =>
      if Ascii.eqb c sep then [] :: split sep s'
      else match split sep s' with
           | [] => [[c]]
           | w :: ws => (c :: w) :: ws
           end
  end.

(** [sep.join(parts)] *)
Fixpoint join (sep : str) (parts : list str) : str :=
  match parts with
  | [] => []
  | [p] => p
  | p :: ps => p ++ sep ++ join sep ps
  end.

(** The characters [int()] strips from both ends of its argument. *)
Definition int_space (c : ascii) : bool :=
  let n := code c in
  ((9 <=? n) && (n <=? 13)) || (n =? 32) || (n =? 133) || (n =? 160).

Fixpoint lstrip (s : str) : str :=
  match s with
  | c :: s' => if int_space c then lstrip s' else s
  | [] => []
  end.

Definition strip (s : str) : str := rev (lstrip (rev (lstrip s))).

Definition digit_value (c : ascii) : option Z :=
  let n := code c in
  if (48 <=? n) && (n <=? 57) then Some (n - 48) else None.

(** The digits of a decimal literal: single underscores are allowed
    between digits, nowhere else. *)
Fixpoint digits (acc : Z) (after_digit : bool) (s : str) : option Z :=
  match s with
  | [] => if after_digit then Some acc else None
  | c :: s' =>
      if Ascii.eqb c "_"%char then
        if after_digit then digits acc false s' else None
      else match digit_value c with
           | Some d => digits (10 * acc + d) true s'
           | None => None
           end
  end.

(** [int(s)]; [None] is [ValueError].  (The interpreter's limit on the
    number of digits of a literal is not part of the model.) *)
Definition int (s : str) : option Z :=
  match strip s with
  | c :: r =>
      if Ascii.eqb c "-"%char then Z.opp <$> digits 0 false r
      else if Ascii.eqb c "+"%char then digits 0 false r
      else digits 0 false (c :: r)
  | [] => None
  end.

(** [a, b = map(int, s.split(sep))]; [None] is [ValueError], raised by
    the unpacking when there are not exactly two fields, or by [int]. *)
Definition int_pair (sep : ascii) (s : str) : option (Z * Z) :=
  match split sep s with
  | [a; b] =>
      match int a, int b with
      | Some x, Some y => Some (x, y)
      | _, _ => None
      end
  | _ => None
  end.

(** [s.isdigit()] *)
Definition isdigit_char (c : ascii) : bool :=
  let n := code c in
  ((48 <=? n) && (n <=? 57)) || (n =? 178) || (n =? 179) || (n =? 185).

Definition isdigit (s : str) : bool :=
  match s with
  | [] => false
  | _ => forallb isdigit_char s
  end.

(** [str(n)] for an integer. *)
Definition str_of_int (n : Z) : str :=
  list_ascii_of_string (NilZero.string_of_int (Z.to_int n)).

(** The bound of a slice, as Python normalises it for a sequence of
    length [n]: a negative bound counts from the end, and the result is
    clamped to [0, n]. *)
Definition slice_bound (n i : Z) : Z :=
  if i <? 0 then Z.max 0 (i + n) else Z.min i n.

(** [s[lo:hi]]; [None] is an omitted bound. *)
Definition slice {A} (s : list A) (lo hi : option Z) : list A :=
  let n := len s in
  let a := from_option (slice_bound n) 0 lo in
  let b := from_option (slice_bound n) n hi in
  take (Z.to_nat (b - a)) (drop (Z.to_nat a) s).

(** [c * n] for a one-character string [c]. *)
Definition repeat_char (c : ascii) (n : Z) : str := replicate (Z.to_nat n) c.

(** [range(a, b)] *)
Definition range (a b : Z) : list Z := seqZ a (b - a).

(** [sorted(set(l))] for a list of integers. *)
Definition sorted_set (l : list Z) : list Z :=
  merge_sort Z.le (elements (list_to_set l : gset Z)).

(** [x in l] for a list of integers. *)
Definition mem (x : Z) (l : list Z) : bool := bool_decide (x ∈ l).

End Py.

(** ** Outcomes

    A method returns, or terminates the process through [sys.exit], or
    lets an exception escape.  The handlers of the source catch
    [ValueError] only; [SystemExit], [KeyError] and [IndexError] pass
    through them. *)

(** The [sys.exit] calls of the modelled methods, named by their message. *)
Inductive exit_site : Set :=
  | InvalidRangeFormat          (* "Error: Invalid range format in '...'" *)
  | InvalidSegmentIndex         (* "Error: Invalid segment index: ..." *)
  | TruncationNotSelected       (* "Error: Truncation segment(s) must be included in the selected segments" *)
  | InvalidTruncationFormat     (* "Error: Invalid truncation format. ..." *)
  | PolyANotSelected            (* "Error: PolyA segment must be included in the selected segments" *)
  | PolyABeyondSegment          (* "Error: Position ... is beyond the length of segment ..." *)
  | InvalidPolyAFormat          (* "Error: Invalid polyA format. ..." *)
  | NoSegmentsSelected          (* "Error: No segments selected" *)
  | InvalidTruncationRange      (* "Error: Invalid truncation range: ..." *)
  | PolyABeyondCombined         (* "Error: PolyA position ... is beyond the length of the combined sequence ..." *)
  | NoSelectionProvided.        (* "Error: No segment selection provided. ..." *)

Inductive exception : Set :=
  | KeyError (key : Z)
  | IndexError.

Inductive outcome (A : Type) : Type :=
  | Ok (a : A)
  | Exit (e : exit_site)
  | Raise (x : exception).

Arguments Ok {A} a.
Arguments Exit {A} e.
Arguments Raise {A} x.

Global Instance outcome_ret : MRet outcome := @Ok.

Global Instance outcome_bind : MBind outcome := fun A B k m =>
  match m with
  | Ok a => k a
  | Exit e => Exit e
  | Raise x => Raise x
  end.

Definition is_ok {A} (m : outcome A) : Prop := exists a, m = Ok a.

(** The error kinds of the specification (section 7), and the kind each
    exit of the program belongs to: selection tokens that are malformed or
    out of range; positions out of bounds, inverted windows and unselected
    segments; malformed truncation and tail expressions. *)
Inductive error_kind : Set := SelectionError | RangeError | FormatError.

Definition kind_of (e : exit_site) : error_kind :=
  match e with
  | InvalidRangeFormat | InvalidSegmentIndex
  | NoSegmentsSelected | NoSelectionProvided => SelectionError
  | TruncationNotSelected | PolyANotSelected | PolyABeyondSegment
  | InvalidTruncationRange | PolyABeyondCombined => RangeError
  | InvalidTruncationFormat | InvalidPolyAFormat => FormatError
  end.

Definition fails_with {A} (k : error_kind) (m : outcome A) : Prop :=
  exists e, m = Exit e /\ kind_of e = k.

(** ** The catalog *)

(** An entry of [self.segment_data]. *)
Record segment : Type := Segment {
  accession : Py.str;
  start : Z;
  end_ : Z;
  header : Py.str;
  sequence : Py.str
}.

(** The state of an [AtlasWriter] after [load_segments]: the list
    [self.segments] of tuples [(i, accession, start, end, header,
    sequence)] and the dictionary [self.segment_data]. *)
Record AtlasWriter : Type := {
  segments : list (Z * Py.str * Z * Z * Py.str * Py.str);
  segment_data : gmap Z segment
}.

Section Methods.

Variable self : AtlasWriter.

(** [self.segment_data[i]] *)
Definition data (i : Z) : outcome segment :=
  match segment_data self !! i with
  | Some s => Ok s
  | None => Raise (KeyError i)
  end.

(** [len(self.segment_data[i]['sequence'])] *)
Definition seq_len (i : Z) : outcome Z :=
  s ← data i; Ok (Py.len (sequence s)).

(** *** [parse_segment_selection] *)

(** One iteration of the loop over [selection.split(',')]: the indices
    the token [part] contributes. *)
Definition selection_part (part : Py.str) : outcome (list Z) :=
  if Py.contains "-" part then
    match Py.int_pair "-" part with
    | Some (start, end_) =>
        if (start <? 1) || (end_ >? Py.len (segments self)) || (start >? end_)
        then Exit InvalidRangeFormat
        else Ok (Py.range start (end_ + 1))
    | None => Exit InvalidRangeFormat
    end
  else
    match Py.int part with
    | Some index =>
        if (index <? 1) || (index >? Py.len (segments self))
        then Exit InvalidSegmentIndex
        else Ok [index]
    | None => Exit InvalidSegmentIndex
    end.

Fixpoint selection_loop (parts : list Py.str) (selected_indices : list Z)
  : outcome (list Z) :=
  match parts with
  | [] => Ok selected_indices
  | part :: parts' =>
      ids ← selection_part part;
      selection_loop parts' (selected_indices ++ ids)
  end.

Definition parse_segment_selection (selection : Py.str) : outcome (list Z) :=
  selected_indices ← selection_loop (Py.split "," selection) [];
  Ok (Py.sorted_set selected_indices).

(** *** [parse_truncation] *)

(** [sum(len(self.segment_data[i]['sequence']) for i in selected_indices
    if i < seg)] *)
Fixpoint sum_len_before (selected_indices : list Z) (seg : Z) : outcome Z :=
  match selected_indices with
  | [] => Ok 0
  | i :: rest =>
      if i <? seg then
        n ← seq_len i;
        m ← sum_len_before rest seg;
        Ok (n + m)
      else sum_len_before rest seg
  end.

(** "Calculate global positions": the offset of the base at [start_pos]
    of [start_segment], kept as the first base of a slice ... *)
Definition linear_start (selected_indices : list Z)
    (start_segment start_pos : Z) : outcome Z :=
  global_start ← sum_len_before selected_indices start_segment;
  Ok (global_start + (start_pos - 1)).

(** ... and the offset after the base at [end_pos] of [end_segment], kept
    as the last base of a slice. *)
Definition linear_end (selected_indices : list Z)
    (end_segment end_pos : Z) : outcome Z :=
  global_end ← sum_len_before selected_indices end_segment;
  Ok (global_end + end_pos).

(** The single-cut forms [segment:position/...] and [segment:position]
    share their body once the count after the slash is known. *)
Definition single_cut (segment position : Z) (poly_a_count : option Z)
    (selected_indices : list Z) : outcome (option Z * option Z * option Z) :=
  if negb (Py.mem segment selected_indices) then Exit TruncationNotSelected
  else
    global_pos ← linear_end selected_indices segment position;
    Ok (None, Some global_pos, poly_a_count).

Definition parse_truncation (truncation : Py.str) (selected_indices : list Z)
  : outcome (option Z * option Z * option Z) :=
  match truncation with
  | [] => Ok (None, None, None)
  | _ =>
    if Py.contains "-" truncation then
      match Py.split "-" truncation with
      | [start_spec; end_spec] =>
          match Py.int_pair ":" start_spec, Py.int_pair ":" end_spec with
          | Some (start_segment, start_pos), Some (end_segment, end_pos) =>
              if negb (Py.mem start_segment selected_indices)
                 || negb (Py.mem end_segment selected_indices)
              then Exit TruncationNotSelected
              else
                global_start ←
                  linear_start selected_indices start_segment start_pos;
                global_end ← linear_end selected_indices end_segment end_pos;
                Ok (Some global_start, Some global_end, None)
          | _, _ => Exit InvalidTruncationFormat
          end
      | _ => Exit InvalidTruncationFormat
      end
    else if Py.contains "/" truncation then
      let fields := Py.split "/" truncation in
      let segment_pos_part := hd [] fields in
      let poly_a_part := nth 1 fields [] in
      match Py.int_pair ":" segment_pos_part with
      | Some (segment, position) =>
          if Py.isdigit poly_a_part then
            match Py.int poly_a_part with
            | Some n => single_cut segment position (Some n) selected_indices
            | None => Exit InvalidTruncationFormat
            end
          else single_cut segment position None selected_indices
      | None => Exit InvalidTruncationFormat
      end
    else
      match Py.int_pair ":" truncation with
      | Some (segment, position) =>
          single_cut segment position None selected_indices
      | None => Exit InvalidTruncationFormat
      end
  end.

(** *** [parse_poly_a] *)

(** The loop that sums the selected segments before [segment] and stops
    at [segment] itself. *)
Fixpoint poly_a_loop (selected_indices : list Z) (segment position : Z)
    (global_pos : Z) : outcome Z :=
  match selected_indices with
  | [] => Ok global_pos
  | idx :: rest =>
      if idx <? segment then
        n ← seq_len idx;
        poly_a_loop rest segment position (global_pos + n)
      else if idx =? segment then Ok (global_pos + position)
      else poly_a_loop rest segment position global_pos
  end.

Definition parse_poly_a (poly_a : Py.str) (selected_indices : list Z)
  : outcome (option Z * option Z) :=
  match poly_a with
  | [] => Ok (None, None)
  | _ =>
    if Py.contains "/" poly_a then
      match Py.split "/" poly_a with
      | [position_part; count_str] =>
          match Py.int count_str with
          | Some count =>
              if Py.contains ":" position_part then
                match Py.int_pair ":" position_part with
                | Some (segment, position) =>
                    if negb (Py.mem segment selected_indices)
                    then Exit PolyANotSelected
                    else
                      n ← seq_len segment;
                      if position >? n then Exit PolyABeyondSegment
                      else
                        global_pos ← poly_a_loop selected_indices segment position 0;
                        Ok (Some global_pos, Some count)
                | None => Exit InvalidPolyAFormat
                end
              else
                match Py.int position_part with
                | Some global_pos => Ok (Some global_pos, Some count)
                | None => Exit InvalidPolyAFormat
                end
          | None => Exit InvalidPolyAFormat
          end
      | _ => Exit InvalidPolyAFormat
      end
    else Exit InvalidPolyAFormat
  end.

(** *** [combine_segments] *)

(** The loop that builds [combined_sequence]. *)
Fixpoint combine_loop (indices : list Z) (combined_sequence : Py.str)
  : outcome Py.str :=
  match indices with
  | [] => Ok combined_sequence
  | idx :: rest =>
      s ← data idx;
      combine_loop rest (combined_sequence ++ sequence s)
  end.

(** [indices[i]] for an index that is not negative. *)
Definition item (indices : list Z) (i : nat) : outcome Z :=
  match indices !! i with
  | Some idx => Ok idx
  | None => Raise IndexError
  end.

(** "Find which segment contains the start position": the values of
    [segment_idx] and [cumulative_length] when the loop is left.  When no
    segment passes the test, [segment_idx] keeps its initial value 0. *)
Fixpoint find_start (indices : list Z) (global_start : Z) (i : nat)
    (cumulative_length : Z) : outcome (nat * Z) :=
  match indices with
  | [] => Ok (0%nat, cumulative_length)
  | idx :: rest =>
      seg_length ← seq_len idx;
      if cumulative_length + seg_length >? global_start
      then Ok (i, cumulative_length)
      else find_start rest global_start (S i) (cumulative_length + seg_length)
  end.

(** "Find which segment contains the end position". *)
Fixpoint find_end (indices : list Z) (global_end : Z) (i : nat)
    (cumulative_length : Z) : outcome (nat * Z) :=
  match indices with
  | [] => Ok (0%nat, cumulative_length)
  | idx :: rest =>
      seg_length ← seq_len idx;
      if cumulative_length + seg_length >=? global_end
      then Ok (i, cumulative_length)
      else find_end rest global_end (S i) (cumulative_length + seg_length)
  end.

(** "Calculate the new start position" *)
Definition new_start_pos (indices : list Z) (global_start : Z) : outcome Z :=
  '(segment_idx, cumulative_length) ← find_start indices global_start 0 0;
  idx ← item indices segment_idx;
  start_seg ← data idx;
  let relative_pos := global_start - cumulative_length in
  Ok (start start_seg + relative_pos).

(** "Calculate the new end position" *)
Definition new_end_pos (indices : list Z) (global_end : Z) : outcome Z :=
  '(segment_idx, cumulative_length) ← find_end indices global_end 0 0;
  idx ← item indices segment_idx;
  end_seg ← data idx;
  let relative_pos := global_end - cumulative_length in
  Ok (start end_seg + relative_pos - 1).

(** [global_start is not None or global_end is not None] *)
Definition truncation_given (global_start global_end : option Z) : bool :=
  bool_decide (is_Some global_start) || bool_decide (is_Some global_end).

(** "Apply truncation if specified": the value of [truncated_sequence]. *)
Definition truncate (combined_sequence : Py.str)
    (global_start global_end : option Z) : outcome Py.str :=
  if truncation_given global_start global_end then
    let start_idx := default 0 global_start in
    let end_idx := default (Py.len combined_sequence) global_end in
    if (start_idx <? 0) || (end_idx >? Py.len combined_sequence)
       || (start_idx >=? end_idx)
    then Exit InvalidTruncationRange
    else Ok (Py.slice combined_sequence (Some start_idx) (Some end_idx))
  else Ok combined_sequence.

(** "Apply polyA tail if specified": the values of [final_sequence] and
    [description]. *)
Definition apply_poly_a (truncated_sequence description : Py.str)
    (poly_a_pos poly_a_count : option Z) : outcome (Py.str * Py.str) :=
  match poly_a_pos, poly_a_count with
  | Some pos, Some count =>
      if pos >? Py.len truncated_sequence then Exit PolyABeyondCombined
      else
        Ok (Py.slice truncated_sequence None (Some pos)
              ++ Py.repeat_char "A" count,
            description ++ Py.lit " (with " ++ Py.str_of_int count
              ++ Py.lit " polyA tail)")
  | _, _ => Ok (truncated_sequence, description)
  end.

(** The local variables of [combine_segments] that make up its result. *)
Record combined : Type := Combined {
  c_accession : Py.str;
  c_start_pos : Z;
  c_end_pos : Z;
  c_description : Py.str;
  c_sequence : Py.str
}.

(** The body of [combine_segments] up to the construction of the header. *)
Definition combine (indices : list Z) (global_start global_end : option Z)
    (poly_a_pos poly_a_count : option Z) : outcome combined :=
  match indices with
  | [] => Exit NoSegmentsSelected
  | first :: _ =>
      first_segment ← data first;
      last_segment ← data (List.last indices first);
      let accession := hd [] (Py.split "." (accession first_segment)) in
      combined_sequence ← combine_loop indices [];
      truncated_sequence ← truncate combined_sequence global_start global_end;
      start_pos ← match global_start with
                   | Some gs => new_start_pos indices gs
                   | None => Ok (start first_segment)
                   end;
      end_pos ← match global_end with
                 | Some ge => new_end_pos indices ge
                 | None => Ok (end_ last_segment)
                 end;
      let description :=
        Py.lit "Combined locus segments "
          ++ Py.join (Py.lit ",") (Py.str_of_int <$> indices) in
      let description :=
        if truncation_given global_start global_end
        then description ++ Py.lit " (truncated)" else description in
      '(final_sequence, description) ←
        apply_poly_a truncated_sequence description poly_a_pos poly_a_count;
      Ok (Combined accession start_pos end_pos description final_sequence)
  end.

(** [f">{accession}.1:{start_pos}-{end_pos} {description}"] *)
Definition header_of (r : combined) : Py.str :=
  Py.lit ">" ++ c_accession r ++ Py.lit ".1:" ++ Py.str_of_int (c_start_pos r)
    ++ Py.lit "-" ++ Py.str_of_int (c_end_pos r) ++ Py.lit " "
    ++ c_description r.

Definition combine_segments (indices : list Z)
    (global_start global_end : option Z) (poly_a_pos poly_a_count : option Z)
  : outcome (Py.str * Py.str) :=
  r ← combine indices global_start global_end poly_a_pos poly_a_count;
  Ok (header_of r, c_sequence r).

(** *** The combine mode of [main]

    The command-line options are [None] when absent; an absent and an
    empty option are both false in the tests of [main].  The result is the
    pair handed to [write_output]. *)
Definition given (arg : option Py.str) : option Py.str :=
  match arg with
  | Some (c :: s) => Some (c :: s)
  | _ => None
  end.

Definition main (include_locus_segment truncate polyA : option Py.str)
  : outcome (Py.str * Py.str) :=
  match given include_locus_segment with
  | None => Exit NoSelectionProvided
  | Some selection =>
      selected_indices ← parse_segment_selection selection;
      '(global_start, global_end, poly_a_count_from_truncate) ←
        match given truncate with
        | Some t => parse_truncation t selected_indices
        | None => Ok (None, None, None)
        end;
      '(poly_a_pos, poly_a_count) ←
        match given polyA with
        | Some p => parse_poly_a p selected_indices
        | None =>
            match poly_a_count_from_truncate with
            | Some n => Ok (global_end, Some n)
            | None => Ok (None, None)
            end
        end;
      combine_segments selected_indices global_start global_end
        poly_a_pos poly_a_count
  end.

End Methods.

(** ** The expressions of the command line

    What a token of the selection, a truncation expression and a tail
    directive denote, and when the program reads a string as one of them:
    the conditions are the tests the parsers make on the string, on the
    results of [split] and of [int]. *)

Inductive token : Set :=
  | Single (n : Z)                       (* N *)
  | Span (a b : Z).                      (* A-B *)

Definition reads_token (part : Py.str) (t : token) : Prop :=
  match t with
  | Single n => Py.contains "-" part = false /\ Py.int part = Some n
  | Span a b => Py.contains "-" part = true /\ Py.int_pair "-" part = Some (a, b)
  end.

(** The ids a token refers to. *)
Definition token_ids (t : token) : list Z :=
  match t with
  | Single n => [n]
  | Span a b => Py.range a (b + 1)
  end.

Definition reads_selection (selection : Py.str) (tokens : list token) : Prop :=
  Forall2 reads_token (Py.split "," selection) tokens.

(** A range token is ordered when [A <= B]; a token is in the catalog
    when every id it refers to lies between 1 and the size of the catalog. *)
Definition token_ordered (t : token) : Prop :=
  match t with
  | Single _ => True
  | Span a b => a <= b
  end.

Definition token_in_catalog (self : AtlasWriter) (t : token) : Prop :=
  Forall (fun id => 1 <= id <= Py.len (segments self)) (token_ids t).

Inductive truncation_form : Set :=
  | RangeForm (segA posA segB posB : Z)          (* segA:posA-segB:posB *)
  | SingleCut (seg pos : Z) (n : option Z)       (* seg:pos/ and seg:pos/N *)
  | BareForm (seg pos : Z).                      (* seg:pos *)

(** The count after the slash of a single cut: taken when the text is all
    digits, ignored otherwise. *)
Definition reads_count (poly_a_part : Py.str) (n : option Z) : Prop :=
  if Py.isdigit poly_a_part then is_Some n /\ Py.int poly_a_part = n
  else n = None.

Definition reads_truncation (truncation : Py.str) (f : truncation_form) : Prop :=
  match f with
  | RangeForm segA posA segB posB =>
      Py.contains "-" truncation = true /\
      exists start_spec end_spec,
        Py.split "-" truncation = [start_spec; end_spec] /\
        Py.int_pair ":" start_spec = Some (segA, posA) /\
        Py.int_pair ":" end_spec = Some (segB, posB)
  | SingleCut seg pos n =>
      Py.contains "-" truncation = false /\
      Py.contains "/" truncation = true /\
      Py.int_pair ":" (hd [] (Py.split "/" truncation)) = Some (seg, pos) /\
      reads_count (nth 1 (Py.split "/" truncation) []) n
  | BareForm seg pos =>
      Py.contains "-" truncation = false /\
      Py.contains "/" truncation = false /\
      Py.int_pair ":" truncation = Some (seg, pos)
  end.

(** The segment ids a truncation expression names. *)
Definition truncation_segments (f : truncation_form) : list Z :=
  match f with
  | RangeForm segA _ segB _ => [segA; segB]
  | SingleCut seg _ _ | BareForm seg _ => [seg]
  end.

Inductive tail_form : Set :=
  | SegmentTail (seg pos n : Z)                  (* seg:pos/N *)
  | GlobalTail (pos n : Z).                      (* globalPos/N *)

Definition reads_tail (poly_a : Py.str) (f : tail_form) : Prop :=
  exists position_part count_str,
    Py.split "/" poly_a = [position_part; count_str] /\
    match f with
    | SegmentTail seg pos n =>
        Py.int count_str = Some n /\
        Py.contains ":" position_part = true /\
        Py.int_pair ":" position_part = Some (seg, pos)
    | GlobalTail pos n =>
        Py.int count_str = Some n /\
        Py.contains ":" position_part = false /\
        Py.int position_part = Some pos
    end.

(** ** Expressions written in decimal

    The text of a token, of a truncation expression and of a tail
    directive whose numbers are printed by [str]. *)

Definition spell_token (t : token) : Py.str :=
  match t with
  | Single n => Py.str_of_int n
  | Span a b => Py.str_of_int a ++ "-"%char :: Py.str_of_int b
  end.

Definition spell_selection (tokens : list token) : Py.str :=
  Py.join (Py.lit ",") (spell_token <$> tokens).

Definition spell_pair (seg pos : Z) : Py.str :=
  Py.str_of_int seg ++ ":"%char :: Py.str_of_int pos.

Definition spell_truncation (f : truncation_form) : Py.str :=
  match f with
  | RangeForm segA posA segB posB =>
      spell_pair segA posA ++ "-"%char :: spell_pair segB posB
  | SingleCut seg pos n =>
      spell_pair seg pos ++ "/"%char :: from_option Py.str_of_int [] n
  | BareForm seg pos => spell_pair seg pos
  end.

Definition spell_tail (f : tail_form) : Py.str :=
  match f with
  | SegmentTail seg pos n => spell_pair seg pos ++ "/"%char :: Py.str_of_int n
  | GlobalTail pos n => Py.str_of_int pos ++ "/"%char :: Py.str_of_int n
  end.

(** The numbers of an expression, none of which is negative in an
    expression written without a sign. *)
Definition token_numbers (t : token) : list Z :=
  match t with
  | Single n => [n]
  | Span a b => [a; b]
  end.

Definition truncation_numbers (f : truncation_form) : list Z :=
  match f with
  | RangeForm segA posA segB posB => [segA; posA; segB; posB]
  | SingleCut seg pos n => seg :: pos :: from_option (fun k => [k]) [] n
  | BareForm seg pos => [seg; pos]
  end.

Definition tail_numbers (f : tail_form) : list Z :=
  match f with
  | SegmentTail seg pos n => [seg; pos; n]
  | GlobalTail pos n => [pos; n]
  end.

Definition unsigned (numbers : list Z) : Prop := Forall (Z.le 0) numbers.

(** The value of a sequence of decimal digits, and its characters. *)
Fixpoint uint_value (acc : Z) (d : Decimal.uint) : Z :=
  match d with
  | Decimal.Nil => acc
  | Decimal.D0 d => uint_value (10 * acc + 0) d
  | Decimal.D1 d => uint_value (10 * acc + 1) d
  | Decimal.D2 d => uint_value (10 * acc + 2) d
  | Decimal.D3 d => uint_value (10 * acc + 3) d
  | Decimal.D4 d => uint_value (10 * acc + 4) d
  | Decimal.D5 d => uint_value (10 * acc + 5) d
  | Decimal.D6 d => uint_value (10 * acc + 6) d
  | Decimal.D7 d => uint_value (10 * acc + 7) d
  | Decimal.D8 d => uint_value (10 * acc + 8) d
  | Decimal.D9 d => uint_value (10 * acc + 9) d
  end.

Definition uint_chars (d : Decimal.uint) : Py.str :=
  list_ascii_of_string (NilEmpty.string_of_uint d).

Definition decimal_char (c : ascii) : Prop := is_Some (Py.digit_value c).

(** ** Selections over a catalog *)

(** Every selected id is a key of [self.segment_data]. *)
Definition present (self : AtlasWriter) (indices : list Z) : Prop :=
  Forall (fun i => is_Some (segment_data self !! i)) indices.

(** The result of the selection parser is ascending and without repeats. *)
Definition ascending (indices : list Z) : Prop := StronglySorted Z.lt indices.

(** The content of segment [i], and the contents of the selected segments
    joined in the order of the selection. *)
Definition content (self : AtlasWriter) (i : Z) : Py.str :=
  match segment_data self !! i with
  | Some s => sequence s
  | None => []
  end.

Definition concatenation (self : AtlasWriter) (indices : list Z) : Py.str :=
  concat (content self <$> indices).

(** ** FASTA text: [format_fasta] and [load_segments] *)

Definition newline : ascii := "010"%char.

(** [range(0, stop, step)]; [None] is the [ValueError] of a zero step. *)
Definition range_from_zero (stop step : Z) : option (list Z) :=
  if step =? 0 then None
  else
    let count :=
      if 0 <? step then (stop + step - 1) / step
      else (- stop - step - 1) / - step in
    Some ((fun k => k * step) <$> seqZ 0 count).

(** [format_fasta(header, sequence, width)]: the header line, then the
    sequence in slices of [width] characters, each followed by a newline.
    [write_output] calls it with the default width 70. *)
Definition format_fasta (header sequence : Py.str) (width : Z)
  : option Py.str :=
  starts ← range_from_zero (Py.len sequence) width;
  Some (header ++ [newline]
          ++ concat ((fun i =>
                        Py.slice sequence (Some i) (Some (i + width))
                          ++ [newline]) <$> starts)).

(** The lines [format_fasta] writes after the header, for a positive
    width. *)
Definition wrapped_lines (sequence : Py.str) (width : Z) : list Py.str :=
  (fun k => Py.slice sequence (Some (k * width)) (Some (k * width + width)))
    <$> seqZ 0 ((Py.len sequence + width - 1) / width).

Definition default_width : Z := 70.

(** The characters [str.strip()] removes from both ends. *)
Definition str_space (c : ascii) : bool :=
  let n := Py.code c in
  ((9 <=? n) && (n <=? 13)) || ((28 <=? n) && (n <=? 32))
  || (n =? 133) || (n =? 160).

Fixpoint str_lstrip (s : Py.str) : Py.str :=
  match s with
  | c :: s' => if str_space c then str_lstrip s' else s
  | [] => []
  end.

(** [s.strip()] *)
Definition str_strip (s : Py.str) : Py.str :=
  rev (str_lstrip (rev (str_lstrip s))).

(** [s.replace('\n', '')] *)
Definition remove_newlines (s : Py.str) : Py.str :=
  List.filter (fun c => negb (Ascii.eqb c newline)) s.

(** [re.findall(r'(>.+?\n)([^>]+)', content, re.DOTALL)], read from left
    to right.  A match begins at a [>]; the lazy [.+?] takes one character
    at least and then stops at the first newline that is followed by a
    character other than [>]; the body [[^>]+] runs to the next [>] or to
    the end.  The next match is looked for where the body stopped.  A
    header that finds no such newline matches nothing, and neither does
    any later [>], since the same newline would serve it. *)
Inductive scan_state : Type :=
  | Outside
  | HeaderFirst
  | InHeader (hdr : Py.str)
  | InBody (hdr body : Py.str).

Fixpoint findall_from (st : scan_state) (content : Py.str)
  : list (Py.str * Py.str) :=
  match content with
  | [] =>
      match st with
      | InBody hdr body => [(hdr, body)]
      | _ => []
      end
  | x :: rest =>
      match st with
      | Outside =>
          if Ascii.eqb x ">" then findall_from HeaderFirst rest
          else findall_from Outside rest
      | HeaderFirst => findall_from (InHeader [">"%char; x]) rest
      | InHeader hdr =>
          match rest with
          | c :: _ =>
              if Ascii.eqb x newline && negb (Ascii.eqb c ">")
              then findall_from (InBody (hdr ++ [x]) []) rest
              else findall_from (InHeader (hdr ++ [x])) rest
          | [] => findall_from (InHeader (hdr ++ [x])) rest
          end
      | InBody hdr body =>
          if Ascii.eqb x ">" then (hdr, body) :: findall_from HeaderFirst rest
          else findall_from (InBody hdr (body ++ [x])) rest
      end
  end.

Definition findall_entries (content : Py.str) : list (Py.str * Py.str) :=
  findall_from Outside content.

(** [\d] on the characters of the model. *)
Definition is_digit (c : ascii) : bool :=
  let n := Py.code c in (48 <=? n) && (n <=? 57).

(** The longest run of digits at the head of a string, and what follows. *)
Fixpoint digits_span (s : Py.str) : Py.str * Py.str :=
  match s with
  | c :: s' =>
      if is_digit c then let '(d, r) := digits_span s' in (c :: d, r)
      else ([], s)
  | [] => ([], [])
  end.

(** [(\d+)-(\d+)] at the head of a string: both groups are greedy, and a
    shorter first group is followed by a digit, not by the dash. *)
Definition match_positions (s : Py.str) : option (Py.str * Py.str) :=
  let '(d1, r1) := digits_span s in
  match d1, r1 with
  | _ :: _, c :: r2 =>
      if Ascii.eqb c "-" then
        let '(d2, _) := digits_span r2 in
        match d2 with
        | _ :: _ => Some (d1, d2)
        | [] => None
        end
      else None
  | _, _ => None
  end.

(** [re.search(r'([^:]+):(\d+)-(\d+)', header)]: the groups of the
    leftmost match.  [run] holds the characters read since the last colon;
    the first group cannot hold a colon, so a match that begins in a run
    takes the run up to its colon, and the leftmost one takes all of it. *)
Fixpoint search_positions (run header : Py.str)
  : option (Py.str * Py.str * Py.str) :=
  match header with
  | [] => None
  | c :: rest =>
      if Ascii.eqb c ":" then
        match run, match_positions rest with
        | _ :: _, Some (d1, d2) => Some (run, d1, d2)
        | _, _ => search_positions [] rest
        end
      else search_positions (run ++ [c]) rest
  end.

(** [self.segments.sort(key=lambda x: x[2])]: a stable sort on the start
    position. *)
Definition start_of (t : Z * Py.str * Z * Z * Py.str * Py.str) : Z :=
  let '(_, _, start, _, _, _) := t in start.

Fixpoint insert_by_start (t : Z * Py.str * Z * Z * Py.str * Py.str)
    (sorted : list (Z * Py.str * Z * Z * Py.str * Py.str))
  : list (Z * Py.str * Z * Z * Py.str * Py.str) :=
  match sorted with
  | [] => [t]
  | u :: sorted' =>
      if start_of t <? start_of u then t :: u :: sorted'
      else u :: insert_by_start t sorted'
  end.

Definition sort_by_start (l : list (Z * Py.str * Z * Z * Py.str * Py.str))
  : list (Z * Py.str * Z * Z * Py.str * Py.str) :=
  foldl (fun sorted t => insert_by_start t sorted) [] l.

(** The state of the loop of [load_segments]: [self.segments],
    [self.segment_data] and the headers for which a warning was printed. *)
Record loading : Type := Loading {
  l_segments : list (Z * Py.str * Z * Z * Py.str * Py.str);
  l_data : gmap Z segment;
  l_warnings : list Py.str
}.

(** The loop over [enumerate(entries, 1)]; [None] is an exception of
    [int], which [load_segments] turns into
    [sys.exit("Error loading FASTA file: ...")]. *)
Fixpoint load_loop (entries : list (Py.str * Py.str)) (i : Z) (st : loading)
  : option loading :=
  match entries with
  | [] => Some st
  | (header, sequence) :: entries' =>
      let header := str_strip header in
      let sequence := str_strip (remove_newlines sequence) in
      match search_positions [] header with
      | Some (accession, d1, d2) =>
          start ← Py.int d1;
          end_ ← Py.int d2;
          load_loop entries' (i + 1)
            (Loading
               (l_segments st
                  ++ [(i, accession, start, end_, header, sequence)])
               (<[i := Segment accession start end_ header sequence]>
                  (l_data st))
               (l_warnings st))
      | None =>
          load_loop entries' (i + 1)
            (Loading (l_segments st) (l_data st) (l_warnings st ++ [header]))
      end
  end.

(** [load_segments] on the text of the file: the catalog it leaves in
    [self] and the headers it warned about, or [None] when it exits.
    (Opening and reading the file are not part of the model.) *)
Definition load_segments (content : Py.str)
  : option (AtlasWriter * list Py.str) :=
  st ← load_loop (findall_entries content) 1 (Loading [] ∅ []);
  Some ({| segments := sort_by_start (l_segments st);
           segment_data := l_data st |},
        l_warnings st).

(** ** Catalogs used in examples *)

(** Two segments of one accession, [ACC:1-10] with ten bases and
    [ACC:11-30] with twenty. *)
Definition seg_1_10 : segment :=
  Segment (Py.lit "ACC") 1 10 (Py.lit ">ACC:1-10") (Py.lit "ACGTACGTAC").

Definition seg_11_30 : segment :=
  Segment (Py.lit "ACC") 11 30 (Py.lit ">ACC:11-30")
    (Py.lit "TTTTTGGGGGCCCCCAAAAA").

Definition tuple_of (i : Z) (s : segment)
  : Z * Py.str * Z * Z * Py.str * Py.str :=
  (i, accession s, start s, end_ s, header s, sequence s).

Definition two_segments : AtlasWriter :=
  {| segments := [tuple_of 1 seg_1_10; tuple_of 2 seg_11_30];
     segment_data := <[1 := seg_1_10]> (<[2 := seg_11_30]> ∅) |}.

(** The catalog of the specification's scenario: segment 1 is
    [ACC:1-100], segment 2 is [ACC:101-300]; the headers and the contents
    are left open. *)
Definition acc_catalog (h1 c1 h2 c2 : Py.str) : AtlasWriter :=
  let s1 := Segment (Py.lit "ACC") 1 100 h1 c1 in
  let s2 := Segment (Py.lit "ACC") 101 300 h2 c2 in
  {| segments := [tuple_of 1 s1; tuple_of 2 s2];
     segment_data := <[1 := s1]> (<[2 := s2]> ∅) |}.

(** One segment whose header announces [ACC:1-10] and whose content has
    four bases. *)
Definition seg_short : segment :=
  Segment (Py.lit "ACC") 1 10 (Py.lit ">ACC:1-10") (Py.lit "ACGT").

Definition short_catalog : AtlasWriter :=
  {| segments := [tuple_of 1 seg_short];
     segment_data := <[1 := seg_short]> ∅ |}.

(** A segment whose record in the file has only blank content lines,
    followed by a segment of twenty bases. *)
Definition seg_blank : segment :=
  Segment (Py.lit "ACC") 1 10 (Py.lit ">ACC:1-10") [].

Definition blank_catalog : AtlasWriter :=
  {| segments := [tuple_of 1 seg_blank; tuple_of 2 seg_11_30];
     segment_data := <[1 := seg_blank]> (<[2 := seg_11_30]> ∅) |}.

(** The catalog left by a file of three records whose second header
    carries no position: the records keep their places in the file as ids,
    1 and 3, and [self.segments] has two elements. *)
Definition gap_catalog : AtlasWriter :=
  {| segments := [tuple_of 1 seg_1_10; tuple_of 3 seg_11_30];
     segment_data := <[1 := seg_1_10]> (<[3 := seg_11_30]> ∅) |}.

(** What the loop of [load_segments] keeps true, between the first id
    [first] and the next id [next]: the list and the dictionary hold the
    same records, every key is an id already given out, and without a
    warning so far every id given out is a key. *)
Record load_invariant (first next : Z) (st : loading) : Prop := {
  inv_same : forall k s,
    l_data st !! k = Some s <-> tuple_of k s ∈ l_segments st;
  inv_keys : forall k, is_Some (l_data st !! k) -> first <= k < next;
  inv_size : size (l_data st) = length (l_segments st);
  inv_count :
    Py.len (l_segments st) + Py.len (l_warnings st) = next - first;
  inv_full : l_warnings st = [] ->
    forall k, first <= k < next -> is_Some (l_data st !! k)
}.

(** The order [sort] leaves the segments in. *)
Definition by_start (t u : Z * Py.str * Z * Z * Py.str * Py.str) : Prop :=
  start_of t <= start_of u.

(** A file of three records; the header of the second has no position. *)
Definition three_records : Py.str :=
  Py.lit ">ACC:11-30" ++ [newline] ++ Py.lit "TTTTTGGGGG" ++ [newline]
    ++ Py.lit "CCCCCAAAAA" ++ [newline]
    ++ Py.lit ">note" ++ [newline] ++ Py.lit "NNNN" ++ [newline]
    ++ Py.lit ">ACC:1-10 first" ++ [newline] ++ Py.lit "ACGTACGTAC"
    ++ [newline].

Definition loaded_1 : segment :=
  Segment (Py.lit ">ACC") 11 30 (Py.lit ">ACC:11-30")
    (Py.lit "TTTTTGGGGGCCCCCAAAAA").

Definition loaded_3 : segment :=
  Segment (Py.lit ">ACC") 1 10 (Py.lit ">ACC:1-10 first")
    (Py.lit "ACGTACGTAC").

Definition three_records_catalog : AtlasWriter :=
  {| segments := [tuple_of 3 loaded_3; tuple_of 1 loaded_1];
     segment_data := <[3 := loaded_3]> (<[1 := loaded_1]> ∅) |}.

(** A file of two records, both with a position in their header. *)
Definition two_records : Py.str :=
  Py.lit ">ACC:1-10 first" ++ [newline] ++ Py.lit "ACGTACGTAC" ++ [newline]
    ++ Py.lit ">ACC:11-30" ++ [newline] ++ Py.lit "TTTTTGGGGG" ++ [newline]
    ++ Py.lit "CCCCCAAAAA" ++ [newline].

Definition two_records_catalog : AtlasWriter :=
  {| segments := [tuple_of 1 loaded_3; tuple_of 2 loaded_1];
     segment_data := <[2 := loaded_1]> (<[1 := loaded_3]> ∅) |}.

(** ** Slices and repetition *)

Lemma len_nonneg {A} (s : list A) : 0 <= Py.len s.
Proof. unfold Py.len. lia. Qed.

Lemma len_app {A} (s t : list A) : Py.len (s ++ t) = Py.len s + Py.len t.
Proof. unfold Py.len. rewrite length_app. lia. Qed.

Lemma slice_prefix {A} (s : list A) (p : Z) :
  0 <= p <= Py.len s ->
  Py.slice s None (Some p) = take (Z.to_nat p) s.
Proof.
  intros Hp. unfold Py.slice, Py.slice_bound. simpl.
  destruct (Z.ltb_spec p 0); [lia|].
  rewrite Z.min_l by lia. rewrite Z.sub_0_r. reflexivity.
Qed.

Lemma slice_window {A} (s : list A) (a b : Z) :
  0 <= a -> a <= b -> b <= Py.len s ->
  Py.slice s (Some a) (Some b)
  = take (Z.to_nat (b - a)) (drop (Z.to_nat a) s).
Proof.
  intros Ha Hab Hb. unfold Py.slice, Py.slice_bound. simpl.
  destruct (Z.ltb_spec a 0); [lia|].
  destruct (Z.ltb_spec b 0); [lia|].
  rewrite !Z.min_l by lia. reflexivity.
Qed.

Lemma slice_whole {A} (s : list A) :
  Py.slice s (Some 0) (Some (Py.len s)) = s.
Proof.
  pose proof (len_nonneg s).
  rewrite slice_window by lia. rewrite Z.sub_0_r. simpl.
  unfold Py.len. rewrite Nat2Z.id. apply firstn_all.
Qed.

Lemma window_length {A} (s : list A) (a b : Z) :
  0 <= a -> a <= b -> b <= Py.len s ->
  Py.len (take (Z.to_nat (b - a)) (drop (Z.to_nat a) s)) = b - a.
Proof.
  intros Ha Hab Hb. unfold Py.len in *.
  rewrite length_take, length_drop. lia.
Qed.

Lemma window_lookup {A} (s : list A) (a b i : Z) :
  0 <= a -> 0 <= i < b - a ->
  take (Z.to_nat (b - a)) (drop (Z.to_nat a) s) !! Z.to_nat i
  = s !! Z.to_nat (a + i).
Proof.
  intros Ha Hi. rewrite lookup_take_lt by lia. rewrite lookup_drop.
  f_equal. lia.
Qed.

Lemma repeat_char_length (c : ascii) (n : Z) :
  0 <= n -> Py.len (Py.repeat_char c n) = n.
Proof.
  intros Hn. unfold Py.len, Py.repeat_char. rewrite length_replicate. lia.
Qed.

(** ** The polyA tail step *)

Lemma apply_poly_a_within (seq description : Py.str) (pos count : Z) :
  pos <= Py.len seq ->
  apply_poly_a seq description (Some pos) (Some count)
  = Ok (Py.slice seq None (Some pos) ++ Py.repeat_char "A" count,
        description ++ Py.lit " (with " ++ Py.str_of_int count
          ++ Py.lit " polyA tail)").
Proof.
  intros Hpos. unfold apply_poly_a.
  destruct (Z.gtb_spec pos (Py.len seq)); [lia | reflexivity].
Qed.

(** The only test of the step is against the length of the sequence. *)
Lemma apply_poly_a_fails_iff (seq description : Py.str) (pos count : Z) :
  fails_with RangeError (apply_poly_a seq description (Some pos) (Some count))
  <-> Py.len seq < pos.
Proof.
  unfold apply_poly_a, fails_with.
  destruct (Z.gtb_spec pos (Py.len seq)); split.
  - lia.
  - intros _. exists PolyABeyondCombined. done.
  - intros (e & He & _). discriminate.
  - lia.
Qed.

(** C4. For a cut offset between 0 and the length of the current sequence
    and a tail length that is not negative, the tail step returns the first
    [cutOffset] characters of the sequence followed by [tailLength] times
    the character A: the output has length [cutOffset + tailLength], it
    agrees with the input below [cutOffset] and is A from there on, so what
    followed the cut offset is replaced, not shifted. *)
Theorem tail_append_shape (seq description : Py.str) (cutOffset tailLength : Z) :
  0 <= cutOffset <= Py.len seq ->
  0 <= tailLength ->
  exists out d,
    apply_poly_a seq description (Some cutOffset) (Some tailLength) = Ok (out, d)
    /\ out = take (Z.to_nat cutOffset) seq
             ++ replicate (Z.to_nat tailLength) "A"%char
    /\ Py.len out = cutOffset + tailLength
    /\ (forall i, 0 <= i < cutOffset ->
          out !! Z.to_nat i = seq !! Z.to_nat i)
    /\ (forall i, cutOffset <= i < cutOffset + tailLength ->
          out !! Z.to_nat i = Some "A"%char).
Proof.
  intros Hcut Htail. eexists _, _.
  split; [apply apply_poly_a_within; lia|].
  rewrite slice_prefix by lia. unfold Py.repeat_char.
  assert (Hlen : length (take (Z.to_nat cutOffset) seq) = Z.to_nat cutOffset).
  { rewrite length_take. unfold Py.len in Hcut. lia. }
  split; [reflexivity|]. split; [|split].
  - unfold Py.len. rewrite length_app, Hlen, length_replicate. lia.
  - intros i Hi. rewrite lookup_app_l by lia. apply lookup_take_lt. lia.
  - intros i Hi. rewrite lookup_app_r by lia.
    apply lookup_replicate_2. lia.
Qed.

Lemma tail_append_shape_witness :
  exists out d,
    apply_poly_a (Py.lit "ACGTACGTAC") (Py.lit "d") (Some 8) (Some 3)
    = Ok (out, d)
    /\ out = Py.lit "ACGTACGTAAA"
    /\ Py.len out = 8 + 3
    /\ (forall i, 0 <= i < 8 ->
          out !! Z.to_nat i = Py.lit "ACGTACGTAC" !! Z.to_nat i)
    /\ (forall i, 8 <= i < 8 + 3 -> out !! Z.to_nat i = Some "A"%char).
Proof.
  apply (tail_append_shape (Py.lit "ACGTACGTAC") (Py.lit "d") 8 3).
  - vm_compute. split; discriminate.
  - lia.
Defined.

(** C5. A negative cut offset is not rejected: the directive [1:-5/3]
    resolves to the cut offset -5, which passes the test of the tail step,
    and the slice up to -5 drops the last five bases instead. *)
Theorem negative_cut_offset_accepted :
  parse_poly_a two_segments (Py.lit "1:-5/3") [1; 2] = Ok (Some (-5), Some 3)
  /\ parse_poly_a two_segments (Py.lit "-5/3") [1; 2] = Ok (Some (-5), Some 3)
  /\ main two_segments (Some (Py.lit "1,2")) None (Some (Py.lit "1:-5/3"))
     = Ok (Py.lit ">ACC.1:1-30 Combined locus segments 1,2 (with 3 polyA tail)",
           Py.lit "ACGTACGTACTTTTTGGGGGCCCCCAAA").
Proof. repeat split; vm_compute; reflexivity. Qed.

(** ** The truncation step *)

Lemma truncation_given_true (global_start global_end : option Z) :
  is_Some global_start \/ is_Some global_end ->
  truncation_given global_start global_end = true.
Proof.
  unfold truncation_given. intros [H|H].
  - rewrite (bool_decide_eq_true_2 _ H). reflexivity.
  - rewrite (bool_decide_eq_true_2 _ H). apply orb_true_r.
Qed.

Lemma truncate_valid (seq : Py.str) (global_start global_end : option Z) :
  let s := default 0 global_start in
  let e := default (Py.len seq) global_end in
  0 <= s -> s < e -> e <= Py.len seq ->
  truncate seq global_start global_end
  = Ok (take (Z.to_nat (e - s)) (drop (Z.to_nat s) seq)).
Proof.
  intros s e Hs Hse He. unfold truncate.
  destruct (truncation_given global_start global_end) eqn:Hg.
  - fold s e.
    destruct (Z.ltb_spec s 0); [lia|].
    destruct (Z.gtb_spec e (Py.len seq)); [lia|].
    destruct (Z.geb_spec s e); [lia|]. simpl.
    rewrite slice_window by lia. reflexivity.
  - unfold truncation_given in Hg. apply orb_false_iff in Hg as [Hg1 Hg2].
    apply bool_decide_eq_false in Hg1, Hg2.
    destruct global_start; [destruct Hg1; eauto|].
    destruct global_end; [destruct Hg2; eauto|].
    subst s e. simpl. rewrite Z.sub_0_r. unfold Py.len.
    rewrite Nat2Z.id, firstn_all. reflexivity.
Qed.

Lemma truncate_invalid (seq : Py.str) (global_start global_end : option Z) :
  let s := default 0 global_start in
  let e := default (Py.len seq) global_end in
  is_Some global_start \/ is_Some global_end ->
  ~ (0 <= s /\ s < e /\ e <= Py.len seq) ->
  truncate seq global_start global_end = Exit InvalidTruncationRange.
Proof.
  intros s e Hg Hbad. unfold truncate.
  rewrite truncation_given_true by done. fold s e.
  destruct (Z.ltb_spec s 0); [done|].
  destruct (Z.gtb_spec e (Py.len seq)); [done|].
  destruct (Z.geb_spec s e); [done|]. lia.
Qed.

(** C6. When a bound is given, the truncation step takes 0 for an unset
    start and the full length for an unset end; it fails with the range
    error exactly when [0 <= keepStart < keepEndExclusive <= totalLength]
    is violated, and otherwise returns the slice from [keepStart] up to
    [keepEndExclusive] of the concatenated sequence. *)
Theorem truncation_step (seq : Py.str) (keepStart keepEndExclusive : option Z) :
  is_Some keepStart \/ is_Some keepEndExclusive ->
  let s := default 0 keepStart in
  let e := default (Py.len seq) keepEndExclusive in
  (fails_with RangeError (truncate seq keepStart keepEndExclusive)
   <-> ~ (0 <= s /\ s < e /\ e <= Py.len seq))
  /\ (0 <= s /\ s < e /\ e <= Py.len seq ->
      exists out,
        truncate seq keepStart keepEndExclusive = Ok out
        /\ Py.len out = e - s
        /\ forall i, 0 <= i < e - s ->
             out !! Z.to_nat i = seq !! Z.to_nat (s + i)).
Proof.
  intros Hg s e. split; [split|].
  - intros (x & Hx & _) (Hs & Hse & He).
    pose proof (truncate_valid seq keepStart keepEndExclusive Hs Hse He) as Hv.
    congruence.
  - intros Hbad. exists InvalidTruncationRange. split; [|done].
    by apply truncate_invalid.
  - intros (Hs & Hse & He). eexists. split; [by apply truncate_valid|].
    split; [apply window_length; lia|].
    intros i Hi. apply window_lookup; lia.
Qed.

Lemma truncation_step_witness :
  (fails_with RangeError (truncate (Py.lit "ACGTACGTAC") None (Some 8))
   <-> ~ (0 <= 0 /\ 0 < 8 /\ 8 <= Py.len (Py.lit "ACGTACGTAC")))
  /\ (0 <= 0 /\ 0 < 8 /\ 8 <= Py.len (Py.lit "ACGTACGTAC") ->
      exists out,
        truncate (Py.lit "ACGTACGTAC") None (Some 8) = Ok out
        /\ Py.len out = 8 - 0
        /\ forall i, 0 <= i < 8 - 0 ->
             out !! Z.to_nat i = Py.lit "ACGTACGTAC" !! Z.to_nat (0 + i)).
Proof.
  apply (truncation_step (Py.lit "ACGTACGTAC") None (Some 8)).
  right. eexists. reflexivity.
Defined.

(** ** Combining *)

Lemma bind_Ok {A B} (m : outcome A) (k : A -> outcome B) (b : B) :
  m ≫= k = Ok b <-> exists a, m = Ok a /\ k a = Ok b.
Proof.
  destruct m; simpl; split; try discriminate; eauto.
  - intros (a' & [= <-] & Hk). exact Hk.
  - intros (a' & ? & _). discriminate.
  - intros (a' & ? & _). discriminate.
Qed.

(** The tail step comes last: it works on the sequence and on the
    description that [combine_segments] has built without it. *)
Lemma combine_tail_last (self : AtlasWriter) (indices : list Z)
    (global_start global_end poly_a_pos poly_a_count : option Z) :
  combine self indices global_start global_end poly_a_pos poly_a_count
  = (r ← combine self indices global_start global_end None None;
     '(final_sequence, description) ←
       apply_poly_a (c_sequence r) (c_description r) poly_a_pos poly_a_count;
     Ok (Combined (c_accession r) (c_start_pos r) (c_end_pos r)
           description final_sequence)).
Proof.
  unfold combine. destruct indices as [|first rest]; [reflexivity|].
  destruct (data self first); [|reflexivity..]. cbn [mbind outcome_bind].
  destruct (data self (List.last _ _)); [|reflexivity..]. cbn [mbind outcome_bind].
  destruct (combine_loop self _ _); [|reflexivity..]. cbn [mbind outcome_bind].
  destruct (truncate _ _ _); [|reflexivity..]. cbn [mbind outcome_bind].
  destruct (match global_start with Some _ => _ | None => _ end);
    [|reflexivity..]. cbn [mbind outcome_bind].
  destruct (match global_end with Some _ => _ | None => _ end);
    [|reflexivity..]. cbn [mbind outcome_bind].
  reflexivity.
Qed.

(** The tail directive [0/0] is read as the cut offset 0 and the tail
    length 0, whatever the selection. *)
Lemma parse_poly_a_zero (self : AtlasWriter) (selected_indices : list Z) :
  parse_poly_a self (Py.lit "0/0") selected_indices = Ok (Some 0, Some 0).
Proof. reflexivity. Qed.

(** C3 (as the program behaves). The tail directive [0/0] is not an error,
    and it adds its annotation to the header; but the tail replaces what
    follows the cut offset, and the cut offset is 0: wherever combining
    without a tail succeeds, combining with [0/0] returns the empty
    sequence. *)
Theorem zero_tail_empties_sequence (self : AtlasWriter) (indices : list Z)
    (global_start global_end : option Z) (header sequence : Py.str) :
  combine_segments self indices global_start global_end None None
    = Ok (header, sequence) ->
  parse_poly_a self (Py.lit "0/0") indices = Ok (Some 0, Some 0)
  /\ combine_segments self indices global_start global_end (Some 0) (Some 0)
     = Ok (header ++ Py.lit " (with 0 polyA tail)", []).
Proof.
  intros H. split; [reflexivity|].
  unfold combine_segments in *. rewrite combine_tail_last.
  apply bind_Ok in H as (r & Hr & [= <- <-]). rewrite Hr.
  cbn [mbind outcome_bind].
  rewrite apply_poly_a_within by apply len_nonneg.
  cbn [mbind outcome_bind]. unfold header_of. cbn [c_accession c_start_pos
    c_end_pos c_description c_sequence].
  rewrite slice_prefix by (pose proof (len_nonneg (c_sequence r)); lia).
  f_equal. f_equal. rewrite <- !app_assoc. reflexivity.
Qed.

Lemma zero_tail_empties_sequence_witness :
  parse_poly_a two_segments (Py.lit "0/0") [1; 2] = Ok (Some 0, Some 0)
  /\ combine_segments two_segments [1; 2] None None (Some 0) (Some 0)
     = Ok (Py.lit ">ACC.1:1-30 Combined locus segments 1,2"
             ++ Py.lit " (with 0 polyA tail)", []).
Proof.
  apply (zero_tail_empties_sequence two_segments [1; 2] None None
           (Py.lit ">ACC.1:1-30 Combined locus segments 1,2")
           (Py.lit "ACGTACGTACTTTTTGGGGGCCCCCAAAAA")).
  vm_compute. reflexivity.
Defined.

(** C3 (as stated) fails: on a combined sequence of thirty bases the
    directive [0/0] leaves no base at all. *)
Lemma zero_tail_changes_sequence :
  main two_segments (Some (Py.lit "1,2")) None None
    = Ok (Py.lit ">ACC.1:1-30 Combined locus segments 1,2",
          Py.lit "ACGTACGTACTTTTTGGGGGCCCCCAAAAA")
  /\ main two_segments (Some (Py.lit "1,2")) None (Some (Py.lit "0/0"))
    = Ok (Py.lit ">ACC.1:1-30 Combined locus segments 1,2 (with 0 polyA tail)",
          Py.lit "").
Proof. split; vm_compute; reflexivity. Qed.

(** ** Reading the expressions *)

Lemma split_nonempty (sep : ascii) (s : Py.str) : Py.split sep s <> [].
Proof.
  destruct s as [|c s]; simpl; [discriminate|].
  destruct (Ascii.eqb c sep); [discriminate|].
  destruct (Py.split sep s); discriminate.
Qed.

Lemma split_without (sep : ascii) (s : Py.str) :
  Py.contains sep s = false -> Py.split sep s = [s].
Proof.
  induction s as [|c s IH]; simpl; [reflexivity|].
  rewrite Ascii.eqb_sym. destruct (Ascii.eqb c sep); simpl; [discriminate|].
  intros H. rewrite IH by exact H. reflexivity.
Qed.

Lemma split_two_contains (sep : ascii) (s a b : Py.str) :
  Py.split sep s = [a; b] -> Py.contains sep s = true.
Proof.
  intros H. destruct (Py.contains sep s) eqn:Hc; [reflexivity|].
  rewrite split_without in H by exact Hc. discriminate.
Qed.

Section Reading.

Variable self : AtlasWriter.
Variable selected_indices : list Z.

Lemma parse_truncation_range (truncation : Py.str) (segA posA segB posB : Z) :
  reads_truncation truncation (RangeForm segA posA segB posB) ->
  parse_truncation self truncation selected_indices
  = if negb (Py.mem segA selected_indices) || negb (Py.mem segB selected_indices)
    then Exit TruncationNotSelected
    else
      global_start ← linear_start self selected_indices segA posA;
      global_end ← linear_end self selected_indices segB posB;
      Ok (Some global_start, Some global_end, None).
Proof.
  intros (Hc & ss & es & Hsplit & Hs & He).
  unfold parse_truncation. destruct truncation as [|c t]; [discriminate|].
  rewrite Hc, Hsplit, Hs, He. reflexivity.
Qed.

Lemma parse_truncation_single (truncation : Py.str) (seg pos : Z)
    (n : option Z) :
  reads_truncation truncation (SingleCut seg pos n) ->
  parse_truncation self truncation selected_indices
  = single_cut self seg pos n selected_indices.
Proof.
  intros (Hd & Hs & Hp & Hn).
  unfold parse_truncation. destruct truncation as [|c t]; [discriminate|].
  rewrite Hd, Hs. cbv zeta. rewrite Hp. unfold reads_count in Hn.
  destruct (Py.isdigit _).
  - destruct Hn as [[k ->] ->]. reflexivity.
  - subst n. reflexivity.
Qed.

Lemma parse_truncation_bare (truncation : Py.str) (seg pos : Z) :
  reads_truncation truncation (BareForm seg pos) ->
  parse_truncation self truncation selected_indices
  = single_cut self seg pos None selected_indices.
Proof.
  intros (Hd & Hs & Hp).
  unfold parse_truncation. destruct truncation as [|c t]; [discriminate|].
  rewrite Hd, Hs, Hp. reflexivity.
Qed.

Lemma parse_poly_a_segment (poly_a : Py.str) (seg pos n : Z) :
  reads_tail poly_a (SegmentTail seg pos n) ->
  parse_poly_a self poly_a selected_indices
  = if negb (Py.mem seg selected_indices) then Exit PolyANotSelected
    else
      len ← seq_len self seg;
      if pos >? len then Exit PolyABeyondSegment
      else
        global_pos ← poly_a_loop self selected_indices seg pos 0;
        Ok (Some global_pos, Some n).
Proof.
  intros (pp & cs & Hsplit & Hn & Hc & Hp).
  unfold parse_poly_a. destruct poly_a as [|c t]; [discriminate|].
  rewrite (split_two_contains _ _ _ _ Hsplit), Hsplit, Hn, Hc, Hp.
  reflexivity.
Qed.

Lemma parse_poly_a_global (poly_a : Py.str) (pos n : Z) :
  reads_tail poly_a (GlobalTail pos n) ->
  parse_poly_a self poly_a selected_indices = Ok (Some pos, Some n).
Proof.
  intros (pp & cs & Hsplit & Hn & Hc & Hp).
  unfold parse_poly_a. destruct poly_a as [|c t]; [discriminate|].
  rewrite (split_two_contains _ _ _ _ Hsplit), Hsplit, Hn, Hc, Hp.
  reflexivity.
Qed.

End Reading.

Lemma mem_true (x : Z) (l : list Z) : x ∈ l -> Py.mem x l = true.
Proof. apply bool_decide_eq_true_2. Qed.

Lemma mem_false (x : Z) (l : list Z) : x ∉ l -> Py.mem x l = false.
Proof. apply bool_decide_eq_false_2. Qed.

(** ** Decimal literals

    [int] reads back what [str] prints, so the expressions written with
    decimal numbers are read as the forms they spell. *)

Lemma of_uint_acc_value (d : Decimal.uint) (acc : positive) :
  Z.pos (Pos.of_uint_acc d acc) = uint_value (Z.pos acc) d.
Proof.
  revert acc. induction d; intros acc; simpl; try reflexivity;
    rewrite IHd; f_equal; lia.
Qed.

Lemma of_uint_value (d : Decimal.uint) :
  Z.of_N (Pos.of_uint d) = uint_value 0 d.
Proof.
  induction d; simpl; try reflexivity; try exact IHd;
    apply of_uint_acc_value.
Qed.

Lemma digits_uint_chars (d : Decimal.uint) (acc : Z) (after_digit : bool) :
  d <> Decimal.Nil \/ after_digit = true ->
  Py.digits acc after_digit (uint_chars d) = Some (uint_value acc d).
Proof.
  revert acc after_digit. unfold uint_chars.
  induction d; intros acc b Hb; simpl;
    try (apply IHd; by right).
  destruct Hb as [?| ->]; done.
Qed.

Lemma uint_chars_decimal (d : Decimal.uint) :
  Forall decimal_char (uint_chars d).
Proof.
  unfold uint_chars.
  induction d; simpl; constructor; try exact IHd; by eexists.
Qed.

Lemma decimal_char_code (c : ascii) :
  decimal_char c <-> 48 <= Py.code c <= 57.
Proof.
  unfold decimal_char, Py.digit_value.
  destruct (Z.leb_spec 48 (Py.code c)) as [H1|H1],
    (Z.leb_spec (Py.code c) 57) as [H2|H2];
    simpl; split; intros Hx; try lia; try (by eexists);
    destruct Hx as [? [=]].
Qed.

(** A separator of the expressions is not a digit. *)
Lemma decimal_char_not (sep c : ascii) :
  decimal_char c ->
  Py.code sep < 48 \/ 57 < Py.code sep ->
  Ascii.eqb sep c = false /\ Ascii.eqb c sep = false.
Proof.
  intros Hc%decimal_char_code Hsep.
  assert (sep <> c) by (intros ->; lia).
  split; apply Ascii.eqb_neq; congruence.
Qed.

Lemma decimal_contains (sep : ascii) (s : Py.str) :
  Forall decimal_char s ->
  Py.code sep < 48 \/ 57 < Py.code sep ->
  Py.contains sep s = false.
Proof.
  intros Hs Hsep. unfold Py.contains.
  induction Hs as [|c s Hc _ IH]; simpl; [reflexivity|].
  destruct (decimal_char_not sep c Hc Hsep) as [-> _]. exact IH.
Qed.

Lemma decimal_not_space (c : ascii) :
  decimal_char c -> Py.int_space c = false.
Proof.
  intros Hc%decimal_char_code. unfold Py.int_space.
  destruct (Z.leb_spec 9 (Py.code c)), (Z.leb_spec (Py.code c) 13),
    (Z.eqb_spec (Py.code c) 32), (Z.eqb_spec (Py.code c) 133),
    (Z.eqb_spec (Py.code c) 160); simpl; try reflexivity; lia.
Qed.

Lemma lstrip_id (c : ascii) (s : Py.str) :
  Py.int_space c = false -> Py.lstrip (c :: s) = c :: s.
Proof. intros H. simpl. rewrite H. reflexivity. Qed.

(** Nothing is stripped from a string that begins and ends with
    characters that are not spaces. *)
Lemma strip_id (s : Py.str) (c d : ascii) (t : Py.str) :
  s = c :: t -> last s = Some d ->
  Py.int_space c = false -> Py.int_space d = false ->
  Py.strip s = s.
Proof.
  intros -> Hl Hc Hd. unfold Py.strip. rewrite (lstrip_id _ _ Hc).
  destruct (rev (c :: t)) as [|e r] eqn:Hr.
  - apply (f_equal (@length _)) in Hr. rewrite length_rev in Hr. done.
  - assert (e = d) as ->.
    { apply (f_equal (@rev ascii)) in Hr. rewrite rev_involutive in Hr.
      rewrite Hr in Hl. simpl in Hl. rewrite last_snoc in Hl. congruence. }
    rewrite (lstrip_id _ _ Hd), <- Hr. apply rev_involutive.
Qed.

Lemma strip_decimal (s : Py.str) :
  s <> [] -> Forall decimal_char s -> Py.strip s = s.
Proof.
  intros Hne Hs. destruct s as [|c t]; [done|].
  destruct (last (c :: t)) as [d|] eqn:Hl.
  - eapply strip_id; [reflexivity | exact Hl | |].
    + apply decimal_not_space. by apply Forall_cons in Hs as [? _].
    + apply decimal_not_space. rewrite Forall_forall in Hs. apply Hs.
      apply last_Some in Hl as [l' ->]. apply elem_of_app. right.
      constructor.
  - apply last_None in Hl. done.
Qed.

Lemma uint_chars_nonempty (d : Decimal.uint) :
  d <> Decimal.Nil -> uint_chars d <> [].
Proof. unfold uint_chars. destruct d; simpl; done. Qed.

Lemma int_uint_chars (d : Decimal.uint) :
  d <> Decimal.Nil -> Py.int (uint_chars d) = Some (uint_value 0 d).
Proof.
  intros Hd. unfold Py.int.
  rewrite strip_decimal
    by (auto using uint_chars_nonempty, uint_chars_decimal).
  pose proof (uint_chars_decimal d) as Hdec.
  pose proof (digits_uint_chars d 0 false (or_introl Hd)) as Hdig.
  destruct (uint_chars d) as [|c r] eqn:Hc;
    [by apply uint_chars_nonempty in Hc|].
  apply Forall_cons in Hdec as [Hdc _].
  destruct (decimal_char_not "-" c Hdc) as [_ ->]; [vm_compute; by left|].
  destruct (decimal_char_not "+" c Hdc) as [_ ->]; [vm_compute; by left|].
  exact Hdig.
Qed.

(** What [str] prints for an integer that is not negative: its digits. *)
Lemma str_of_int_nonneg (n : Z) :
  0 <= n ->
  exists d, d <> Decimal.Nil /\ Py.str_of_int n = uint_chars d
            /\ uint_value 0 d = n.
Proof.
  intros Hn. unfold Py.str_of_int. destruct n as [|p|p]; [| |lia].
  - exists (Decimal.D0 Decimal.Nil). done.
  - exists (Pos.to_uint p). pose proof (DecimalPos.Unsigned.to_uint_nonnil p).
    split; [done|]. split.
    + simpl. unfold NilZero.string_of_uint, uint_chars.
      destruct (Pos.to_uint p); done.
    + rewrite <- of_uint_value, DecimalPos.Unsigned.of_to. reflexivity.
Qed.

Lemma str_of_int_decimal (n : Z) :
  0 <= n -> Forall decimal_char (Py.str_of_int n).
Proof.
  intros (d & _ & -> & _)%str_of_int_nonneg. apply uint_chars_decimal.
Qed.

(** [int(str(n)) == n] *)
Lemma int_str_of_int (n : Z) : 0 <= n -> Py.int (Py.str_of_int n) = Some n.
Proof.
  intros (d & Hd & -> & <-)%str_of_int_nonneg. by apply int_uint_chars.
Qed.

(** ** Spelled expressions are read as their forms *)

Lemma contains_app (c : ascii) (a b : Py.str) :
  Py.contains c (a ++ b) = Py.contains c a || Py.contains c b.
Proof. unfold Py.contains. apply existsb_app. Qed.

Lemma contains_cons_eq (c : ascii) (s : Py.str) :
  Py.contains c (c :: s) = true.
Proof. unfold Py.contains. simpl. by rewrite Ascii.eqb_refl. Qed.

Lemma contains_cons_ne (c d : ascii) (s : Py.str) :
  c <> d -> Py.contains c (d :: s) = Py.contains c s.
Proof.
  intros Hne%Ascii.eqb_neq. unfold Py.contains. simpl. by rewrite Hne.
Qed.

Lemma split_app_sep (sep : ascii) (a b : Py.str) :
  Py.contains sep a = false ->
  Py.split sep (a ++ sep :: b) = a :: Py.split sep b.
Proof.
  induction a as [|c a IH]; simpl.
  - intros _. by rewrite Ascii.eqb_refl.
  - rewrite Ascii.eqb_sym. destruct (Ascii.eqb c sep); [done|].
    simpl. intros H. by rewrite IH.
Qed.

Lemma str_of_int_contains (sep : ascii) (n : Z) :
  0 <= n ->
  Py.code sep < 48 \/ 57 < Py.code sep ->
  Py.contains sep (Py.str_of_int n) = false.
Proof. intros Hn. apply decimal_contains. by apply str_of_int_decimal. Qed.

Lemma str_of_int_isdigit (n : Z) :
  0 <= n -> Py.isdigit (Py.str_of_int n) = true.
Proof.
  intros Hn. destruct (str_of_int_nonneg n Hn) as (d & Hd & Hs & _).
  pose proof (str_of_int_decimal n Hn) as Hdec.
  unfold Py.isdigit. destruct (Py.str_of_int n) as [|c r] eqn:Hc.
  - symmetry in Hs. by apply uint_chars_nonempty in Hs.
  - apply forallb_forall. intros x Hx%list_elem_of_In.
    rewrite Forall_forall in Hdec. apply Hdec, decimal_char_code in Hx.
    unfold Py.isdigit_char.
    destruct (Z.leb_spec 48 (Py.code x)), (Z.leb_spec (Py.code x) 57);
      simpl; try reflexivity; lia.
Qed.

Ltac separator := vm_compute; solve [left; reflexivity | right; reflexivity].

Lemma spell_pair_contains (sep : ascii) (seg pos : Z) :
  0 <= seg -> 0 <= pos ->
  Py.code sep < 48 \/ 57 < Py.code sep ->
  sep <> ":"%char ->
  Py.contains sep (spell_pair seg pos) = false.
Proof.
  intros Hs Hp Hsep Hne. unfold spell_pair.
  rewrite contains_app, (str_of_int_contains _ _ Hs Hsep).
  rewrite contains_cons_ne by exact Hne.
  by apply str_of_int_contains.
Qed.

Lemma int_pair_spell_pair (seg pos : Z) :
  0 <= seg -> 0 <= pos ->
  Py.int_pair ":" (spell_pair seg pos) = Some (seg, pos).
Proof.
  intros Hs Hp. unfold Py.int_pair, spell_pair.
  rewrite split_app_sep by (apply str_of_int_contains; [done | separator]).
  rewrite split_without by (apply str_of_int_contains; [done | separator]).
  by rewrite !int_str_of_int.
Qed.

Lemma reads_spelled_token (t : token) :
  unsigned (token_numbers t) -> reads_token (spell_token t) t.
Proof.
  unfold unsigned. destruct t as [n | a b]; simpl; intros H.
  - rewrite Forall_singleton in H. split.
    + apply str_of_int_contains; [done | separator].
    + by apply int_str_of_int.
  - apply Forall_cons in H as [Ha H]. rewrite Forall_singleton in H.
    split.
    + by rewrite contains_app, contains_cons_eq, orb_true_r.
    + unfold Py.int_pair.
      rewrite split_app_sep by (apply str_of_int_contains; [done | separator]).
      rewrite split_without by (apply str_of_int_contains; [done | separator]).
      by rewrite !int_str_of_int.
Qed.

Lemma spell_token_no_comma (t : token) :
  unsigned (token_numbers t) -> Py.contains "," (spell_token t) = false.
Proof.
  unfold unsigned. destruct t as [n | a b]; simpl; intros H.
  - rewrite Forall_singleton in H.
    apply str_of_int_contains; [done | separator].
  - apply Forall_cons in H as [Ha H]. rewrite Forall_singleton in H.
    rewrite contains_app, contains_cons_ne by done.
    rewrite !str_of_int_contains; [done | done | separator | done | separator].
Qed.

(** Every list of tokens, one at least, written with unsigned decimal
    numbers and commas is read as that list. *)
Lemma reads_spelled_selection (tokens : list token) :
  tokens <> [] ->
  Forall (fun t => unsigned (token_numbers t)) tokens ->
  reads_selection (spell_selection tokens) tokens.
Proof.
  unfold reads_selection, spell_selection. intros Hne Hall.
  induction Hall as [|t tokens Ht Hall IH]; [done|].
  destruct tokens as [|t' tokens].
  - simpl. rewrite split_without by by apply spell_token_no_comma.
    repeat constructor. by apply reads_spelled_token.
  - change (Py.join (Py.lit ",") (spell_token <$> t :: t' :: tokens))
      with (spell_token t
              ++ ","%char :: Py.join (Py.lit ",") (spell_token <$> t' :: tokens)).
    rewrite split_app_sep by by apply spell_token_no_comma.
    constructor; [by apply reads_spelled_token | by apply IH].
Qed.

Lemma reads_spelled_truncation (f : truncation_form) :
  unsigned (truncation_numbers f) ->
  reads_truncation (spell_truncation f) f.
Proof.
  unfold unsigned. destruct f as [segA posA segB posB | seg pos n | seg pos];
    simpl; intros H.
  - apply Forall_cons in H as [HA H]. apply Forall_cons in H as [HpA H].
    apply Forall_cons in H as [HB H]. rewrite Forall_singleton in H.
    split; [by rewrite contains_app, contains_cons_eq, orb_true_r|].
    exists (spell_pair segA posA), (spell_pair segB posB).
    split; [|split; by apply int_pair_spell_pair].
    rewrite split_app_sep
      by (apply spell_pair_contains; [done | done | separator | done]).
    rewrite split_without
      by (apply spell_pair_contains; [done | done | separator | done]).
    reflexivity.
  - apply Forall_cons in H as [Hs H]. apply Forall_cons in H as [Hp H].
    assert (Hn : Py.contains "-" (from_option Py.str_of_int [] n) = false
                 /\ Py.contains "/" (from_option Py.str_of_int [] n) = false).
    { destruct n as [k|]; simpl in *; [|done]. rewrite Forall_singleton in H.
      split; apply str_of_int_contains; first [done | separator]. }
    destruct Hn as [Hn1 Hn2].
    split; [|split; [|split]].
    + rewrite contains_app.
      rewrite spell_pair_contains by first [done | separator].
      rewrite contains_cons_ne by done. exact Hn1.
    + by rewrite contains_app, contains_cons_eq, orb_true_r.
    + rewrite split_app_sep
        by (apply spell_pair_contains; [done | done | separator | done]).
      simpl. by apply int_pair_spell_pair.
    + rewrite split_app_sep
        by (apply spell_pair_contains; [done | done | separator | done]).
      rewrite split_without by exact Hn2. simpl. unfold reads_count.
      destruct n as [k|]; simpl in *; [|done]. rewrite Forall_singleton in H.
      rewrite str_of_int_isdigit, int_str_of_int by done. split; by eauto.
  - apply Forall_cons in H as [Hs H]. rewrite Forall_singleton in H.
    split; [|split].
    + apply spell_pair_contains; [done | done | separator | done].
    + apply spell_pair_contains; [done | done | separator | done].
    + by apply int_pair_spell_pair.
Qed.

Lemma reads_spelled_tail (f : tail_form) :
  unsigned (tail_numbers f) -> reads_tail (spell_tail f) f.
Proof.
  unfold unsigned. destruct f as [seg pos n | pos n]; simpl; intros H.
  - apply Forall_cons in H as [Hs H]. apply Forall_cons in H as [Hp H].
    rewrite Forall_singleton in H.
    exists (spell_pair seg pos), (Py.str_of_int n). split; [|split; [|split]].
    + rewrite split_app_sep
        by (apply spell_pair_contains; [done | done | separator | done]).
      rewrite split_without by (apply str_of_int_contains; [done | separator]).
      reflexivity.
    + by apply int_str_of_int.
    + unfold spell_pair. by rewrite contains_app, contains_cons_eq, orb_true_r.
    + by apply int_pair_spell_pair.
  - apply Forall_cons in H as [Hp H]. rewrite Forall_singleton in H.
    exists (Py.str_of_int pos), (Py.str_of_int n). split; [|split; [|split]].
    + rewrite split_app_sep by (apply str_of_int_contains; [done | separator]).
      rewrite split_without by (apply str_of_int_contains; [done | separator]).
      reflexivity.
    + by apply int_str_of_int.
    + apply str_of_int_contains; [done | separator].
    + by apply int_str_of_int.
Qed.

(** ** Expressions that name an unselected segment *)

Lemma single_cut_unselected (self : AtlasWriter) (seg pos : Z) (n : option Z)
    (selected_indices : list Z) :
  seg ∉ selected_indices ->
  single_cut self seg pos n selected_indices = Exit TruncationNotSelected.
Proof. intros H. unfold single_cut. rewrite mem_false by exact H. reflexivity. Qed.

Lemma truncation_unselected (self : AtlasWriter) (selected_indices : list Z)
    (truncation : Py.str) (f : truncation_form) :
  reads_truncation truncation f ->
  (exists seg, seg ∈ truncation_segments f /\ seg ∉ selected_indices) ->
  parse_truncation self truncation selected_indices
  = Exit TruncationNotSelected.
Proof.
  intros Hr (seg & Hin & Hout). destruct f as [segA posA segB posB| |]; simpl in Hin.
  - rewrite (parse_truncation_range _ _ _ _ _ _ _ Hr).
    apply elem_of_cons in Hin as [->|Hin].
    + rewrite (mem_false _ _ Hout). reflexivity.
    + apply list_elem_of_singleton in Hin as ->.
      rewrite (mem_false _ _ Hout). rewrite orb_true_r. reflexivity.
  - rewrite (parse_truncation_single _ _ _ _ _ _ Hr).
    apply list_elem_of_singleton in Hin as ->. by apply single_cut_unselected.
  - rewrite (parse_truncation_bare _ _ _ _ _ Hr).
    apply list_elem_of_singleton in Hin as ->. by apply single_cut_unselected.
Qed.

Lemma tail_unselected (self : AtlasWriter) (selected_indices : list Z)
    (poly_a : Py.str) (seg pos n : Z) :
  reads_tail poly_a (SegmentTail seg pos n) ->
  seg ∉ selected_indices ->
  parse_poly_a self poly_a selected_indices = Exit PolyANotSelected.
Proof.
  intros Hr Hout. rewrite (parse_poly_a_segment _ _ _ _ _ _ Hr).
  rewrite (mem_false _ _ Hout). reflexivity.
Qed.

(** C8. A truncation expression, in any of its three syntaxes, and a
    segment-relative tail directive fail with the range error when they
    name a segment id that is not in the selection. *)
Theorem unselected_segment_rejected (self : AtlasWriter)
    (selected_indices : list Z) :
  (forall truncation f,
      reads_truncation truncation f ->
      (exists seg, seg ∈ truncation_segments f /\ seg ∉ selected_indices) ->
      fails_with RangeError
        (parse_truncation self truncation selected_indices))
  /\ (forall poly_a seg pos n,
      reads_tail poly_a (SegmentTail seg pos n) ->
      seg ∉ selected_indices ->
      fails_with RangeError (parse_poly_a self poly_a selected_indices)).
Proof.
  split.
  - intros t f Hr Hout. exists TruncationNotSelected.
    split; [by eapply truncation_unselected | reflexivity].
  - intros p seg pos n Hr Hout. exists PolyANotSelected.
    split; [by eapply tail_unselected | reflexivity].
Qed.

Lemma reads_range_1_5_2_3 :
  reads_truncation (Py.lit "1:5-2:3") (RangeForm 1 5 2 3).
Proof. split; [reflexivity|]. eexists _, _. repeat split. Qed.

Lemma reads_single_2_3_4 :
  reads_truncation (Py.lit "2:3/4") (SingleCut 2 3 (Some 4)).
Proof. repeat split. eexists. reflexivity. Qed.

Lemma reads_single_2_3 :
  reads_truncation (Py.lit "2:3/") (SingleCut 2 3 None).
Proof. repeat split. Qed.

Lemma reads_bare_2_3 : reads_truncation (Py.lit "2:3") (BareForm 2 3).
Proof. repeat split. Qed.

Lemma reads_tail_2_3_4 : reads_tail (Py.lit "2:3/4") (SegmentTail 2 3 4).
Proof. eexists _, _. repeat split. Qed.

Lemma two_not_in_one : 2 ∉ [1].
Proof. intros H. apply list_elem_of_singleton in H. discriminate. Qed.

Lemma unselected_segment_rejected_witness :
  fails_with RangeError (parse_truncation two_segments (Py.lit "1:5-2:3") [1])
  /\ fails_with RangeError (parse_truncation two_segments (Py.lit "2:3/4") [1])
  /\ fails_with RangeError (parse_truncation two_segments (Py.lit "2:3/") [1])
  /\ fails_with RangeError (parse_truncation two_segments (Py.lit "2:3") [1])
  /\ fails_with RangeError (parse_poly_a two_segments (Py.lit "2:3/4") [1]).
Proof.
  destruct (unselected_segment_rejected two_segments [1]) as [Ht Hp].
  repeat split.
  - apply (Ht _ _ reads_range_1_5_2_3). exists 2.
    split; [right; left | apply two_not_in_one].
  - apply (Ht _ _ reads_single_2_3_4). exists 2.
    split; [left | apply two_not_in_one].
  - apply (Ht _ _ reads_single_2_3). exists 2.
    split; [left | apply two_not_in_one].
  - apply (Ht _ _ reads_bare_2_3). exists 2.
    split; [left | apply two_not_in_one].
  - apply (Hp _ _ _ _ reads_tail_2_3_4 two_not_in_one).
Defined.

(** ** Walking the selection *)

Section Walk.

Variable self : AtlasWriter.

Lemma data_Some (i : Z) (s : segment) :
  segment_data self !! i = Some s -> data self i = Ok s.
Proof. intros H. unfold data. rewrite H. reflexivity. Qed.

Lemma seq_len_Some (i : Z) (s : segment) :
  segment_data self !! i = Some s ->
  seq_len self i = Ok (Py.len (sequence s)).
Proof. intros H. unfold seq_len. rewrite (data_Some _ _ H). reflexivity. Qed.

Lemma content_Some (i : Z) (s : segment) :
  segment_data self !! i = Some s -> content self i = sequence s.
Proof. intros H. unfold content. rewrite H. reflexivity. Qed.

Lemma seq_len_present (i : Z) :
  is_Some (segment_data self !! i) ->
  seq_len self i = Ok (Py.len (content self i)).
Proof.
  intros [s Hs]. rewrite (seq_len_Some _ _ Hs), (content_Some _ _ Hs).
  reflexivity.
Qed.

Lemma concatenation_cons (i : Z) (indices : list Z) :
  concatenation self (i :: indices)
  = content self i ++ concatenation self indices.
Proof. reflexivity. Qed.

Lemma concatenation_app (l1 l2 : list Z) :
  concatenation self (l1 ++ l2)
  = concatenation self l1 ++ concatenation self l2.
Proof. unfold concatenation. rewrite fmap_app, concat_app. reflexivity. Qed.

Lemma combine_loop_present (indices : list Z) (acc : Py.str) :
  present self indices ->
  combine_loop self indices acc = Ok (acc ++ concatenation self indices).
Proof.
  intros Hp. revert acc. induction Hp as [|i indices [s Hs] _ IH]; intros acc.
  - simpl. rewrite app_nil_r. reflexivity.
  - simpl. rewrite (data_Some _ _ Hs). cbn [mbind outcome_bind].
    rewrite IH, concatenation_cons, (content_Some _ _ Hs), app_assoc.
    reflexivity.
Qed.

(** The sum over the selected ids below [seg]. *)
Lemma sum_len_before_below (indices : list Z) (seg : Z) :
  present self indices ->
  Forall (fun i => i < seg) indices ->
  sum_len_before self indices seg = Ok (Py.len (concatenation self indices)).
Proof.
  intros Hp. induction Hp as [|i indices Hi _ IH]; intros Hlt.
  - reflexivity.
  - apply Forall_cons in Hlt as [Hi' Hlt]. simpl.
    destruct (Z.ltb_spec i seg); [|lia].
    rewrite (seq_len_present _ Hi). cbn [mbind outcome_bind].
    rewrite (IH Hlt). cbn [mbind outcome_bind].
    rewrite concatenation_cons, len_app. reflexivity.
Qed.

Lemma sum_len_before_above (indices : list Z) (seg : Z) :
  Forall (fun i => seg <= i) indices ->
  sum_len_before self indices seg = Ok 0.
Proof.
  induction 1 as [|i indices Hi _ IH]; [reflexivity|]. simpl.
  destruct (Z.ltb_spec i seg); [lia | exact IH].
Qed.

Lemma sum_len_before_app (l1 l2 : list Z) (seg n1 n2 : Z) :
  sum_len_before self l1 seg = Ok n1 ->
  sum_len_before self l2 seg = Ok n2 ->
  sum_len_before self (l1 ++ l2) seg = Ok (n1 + n2).
Proof.
  revert n1. induction l1 as [|i l1 IH]; intros n1 H1 H2; simpl in *.
  - injection H1 as <-. exact H2.
  - destruct (i <? seg).
    + apply bind_Ok in H1 as (a & Ha & H1).
      apply bind_Ok in H1 as (b & Hb & [= <-]).
      rewrite Ha. cbn [mbind outcome_bind].
      rewrite (IH _ Hb H2). cbn [mbind outcome_bind]. f_equal. lia.
    + by apply IH.
Qed.

(** In an ascending selection the ids below [k] are those listed before
    it: the sum stops at the beginning of segment [k]. *)
Lemma sum_len_before_ascending (pre post : list Z) (k : Z) :
  ascending (pre ++ k :: post) ->
  present self pre ->
  sum_len_before self (pre ++ k :: post) k
  = Ok (Py.len (concatenation self pre)).
Proof.
  intros Hasc Hp.
  apply StronglySorted_app in Hasc as (Hlt & _ & Hk).
  apply StronglySorted_cons in Hk as [Hpost _].
  replace (Py.len (concatenation self pre))
    with (Py.len (concatenation self pre) + 0) by lia.
  apply sum_len_before_app.
  - apply sum_len_before_below; [exact Hp|].
    apply Forall_forall. intros i Hi. apply (Hlt i k Hi). constructor.
  - apply sum_len_before_above. constructor; [lia|].
    eapply Forall_impl; [exact Hpost|]. simpl. lia.
Qed.

End Walk.

(** ** Finding the segment of an offset *)

Section Find.

Variable self : AtlasWriter.

Lemma find_start_skip (pre rest : list Z) (global_start : Z) (i : nat) (c : Z) :
  present self pre ->
  c + Py.len (concatenation self pre) <= global_start ->
  find_start self (pre ++ rest) global_start i c
  = find_start self rest global_start (i + length pre)
      (c + Py.len (concatenation self pre)).
Proof.
  intros Hp. revert i c. induction Hp as [|j pre Hj _ IH]; intros i c Hle.
  - simpl. f_equal; [lia|]. unfold Py.len. simpl. lia.
  - rewrite concatenation_cons, len_app in *.
    pose proof (len_nonneg (concatenation self pre)).
    simpl. rewrite (seq_len_present _ _ Hj). cbn [mbind outcome_bind].
    destruct (Z.gtb_spec (c + Py.len (content self j)) global_start); [lia|].
    rewrite IH by lia. f_equal; lia.
Qed.

Lemma find_start_here (k : Z) (rest : list Z) (global_start : Z) (i : nat)
    (c : Z) :
  is_Some (segment_data self !! k) ->
  global_start < c + Py.len (content self k) ->
  find_start self (k :: rest) global_start i c = Ok (i, c).
Proof.
  intros Hk Hlt. simpl. rewrite (seq_len_present _ _ Hk).
  cbn [mbind outcome_bind].
  destruct (Z.gtb_spec (c + Py.len (content self k)) global_start);
    [reflexivity | lia].
Qed.

Lemma find_end_skip (pre rest : list Z) (global_end : Z) (i : nat) (c : Z) :
  present self pre ->
  c + Py.len (concatenation self pre) < global_end ->
  find_end self (pre ++ rest) global_end i c
  = find_end self rest global_end (i + length pre)
      (c + Py.len (concatenation self pre)).
Proof.
  intros Hp. revert i c. induction Hp as [|j pre Hj _ IH]; intros i c Hle.
  - simpl. f_equal; [lia|]. unfold Py.len. simpl. lia.
  - rewrite concatenation_cons, len_app in *.
    pose proof (len_nonneg (concatenation self pre)).
    simpl. rewrite (seq_len_present _ _ Hj). cbn [mbind outcome_bind].
    destruct (Z.geb_spec (c + Py.len (content self j)) global_end); [lia|].
    rewrite IH by lia. f_equal; lia.
Qed.

Lemma find_end_here (k : Z) (rest : list Z) (global_end : Z) (i : nat)
    (c : Z) :
  is_Some (segment_data self !! k) ->
  global_end <= c + Py.len (content self k) ->
  find_end self (k :: rest) global_end i c = Ok (i, c).
Proof.
  intros Hk Hlt. simpl. rewrite (seq_len_present _ _ Hk).
  cbn [mbind outcome_bind].
  destruct (Z.geb_spec (c + Py.len (content self k)) global_end);
    [reflexivity | lia].
Qed.

(** Both loops end, on an index of the selection. *)
Lemma find_start_total (indices : list Z) (global_start : Z) (i : nat) (c : Z) :
  present self indices ->
  exists j c',
    find_start self indices global_start i c = Ok (j, c')
    /\ (j = 0 \/ i <= j < i + length indices)%nat.
Proof.
  intros Hp. revert i c. induction Hp as [|k indices Hk _ IH]; intros i c.
  - exists 0%nat, c. split; [reflexivity | by left].
  - simpl. rewrite (seq_len_present _ _ Hk). cbn [mbind outcome_bind].
    destruct (_ >? _).
    + exists i, c. split; [reflexivity | right; lia].
    + destruct (IH (S i) (c + Py.len (content self k))) as (j & c' & H & Hj).
      exists j, c'. split; [exact H | lia].
Qed.

Lemma find_end_total (indices : list Z) (global_end : Z) (i : nat) (c : Z) :
  present self indices ->
  exists j c',
    find_end self indices global_end i c = Ok (j, c')
    /\ (j = 0 \/ i <= j < i + length indices)%nat.
Proof.
  intros Hp. revert i c. induction Hp as [|k indices Hk _ IH]; intros i c.
  - exists 0%nat, c. split; [reflexivity | by left].
  - simpl. rewrite (seq_len_present _ _ Hk). cbn [mbind outcome_bind].
    destruct (_ >=? _).
    + exists i, c. split; [reflexivity | right; lia].
    + destruct (IH (S i) (c + Py.len (content self k))) as (j & c' & H & Hj).
      exists j, c'. split; [exact H | lia].
Qed.

Lemma item_present (indices : list Z) (j : nat) :
  present self indices ->
  (j < length indices)%nat ->
  exists idx s,
    item indices j = Ok idx /\ segment_data self !! idx = Some s.
Proof.
  intros Hp Hj. destruct (lookup_lt_is_Some_2 indices j Hj) as [idx Hidx].
  unfold present in Hp. rewrite Forall_lookup in Hp.
  destruct (Hp j idx Hidx) as [s Hs].
  exists idx, s. unfold item. rewrite Hidx. done.
Qed.

Lemma new_start_pos_total (indices : list Z) (global_start : Z) :
  present self indices -> indices <> [] ->
  is_ok (new_start_pos self indices global_start).
Proof.
  intros Hp Hne. unfold new_start_pos.
  destruct (find_start_total indices global_start 0 0 Hp) as (j & c & -> & Hj).
  cbn [mbind outcome_bind].
  assert (Hlt : (j < length indices)%nat).
  { destruct indices; [done|]. simpl in *. lia. }
  destruct (item_present indices j Hp Hlt) as (idx & s & -> & Hs).
  cbn [mbind outcome_bind]. rewrite (data_Some _ _ _ Hs).
  eexists. reflexivity.
Qed.

Lemma new_end_pos_total (indices : list Z) (global_end : Z) :
  present self indices -> indices <> [] ->
  is_ok (new_end_pos self indices global_end).
Proof.
  intros Hp Hne. unfold new_end_pos.
  destruct (find_end_total indices global_end 0 0 Hp) as (j & c & -> & Hj).
  cbn [mbind outcome_bind].
  assert (Hlt : (j < length indices)%nat).
  { destruct indices; [done|]. simpl in *. lia. }
  destruct (item_present indices j Hp Hlt) as (idx & s & -> & Hs).
  cbn [mbind outcome_bind]. rewrite (data_Some _ _ _ Hs).
  eexists. reflexivity.
Qed.

(** With every selected segment in the catalog, a truncation window
    within the concatenation is all that [combine_segments] needs. *)
Lemma combine_window (indices : list Z) (global_start global_end : Z) :
  present self indices -> indices <> [] ->
  0 <= global_start -> global_start < global_end ->
  global_end <= Py.len (concatenation self indices) ->
  exists r,
    combine self indices (Some global_start) (Some global_end) None None = Ok r
    /\ c_sequence r
       = take (Z.to_nat (global_end - global_start))
           (drop (Z.to_nat global_start) (concatenation self indices))
    /\ new_start_pos self indices global_start = Ok (c_start_pos r)
    /\ new_end_pos self indices global_end = Ok (c_end_pos r).
Proof.
  intros Hp Hne Hs Hse He.
  destruct (new_start_pos_total indices global_start Hp Hne) as [sp Hsp].
  destruct (new_end_pos_total indices global_end Hp Hne) as [ep Hep].
  unfold combine. destruct indices as [|first rest]; [done|].
  pose proof Hp as Hp'. apply Forall_cons in Hp' as [[s1 Hs1] _].
  rewrite (data_Some _ _ _ Hs1). cbn [mbind outcome_bind].
  assert (Hlast : is_Some (segment_data self !! List.last (first :: rest) first)).
  { unfold present in Hp. rewrite Forall_forall in Hp. apply Hp.
    apply list_elem_of_In.
    destruct (exists_last (l := first :: rest)) as (l' & a & Heq); [done|].
    rewrite Heq, last_last. apply in_or_app. right. left. reflexivity. }
  destruct Hlast as [sl Hsl]. rewrite (data_Some _ _ _ Hsl).
  cbn [mbind outcome_bind].
  rewrite (combine_loop_present _ _ _ Hp). cbn [mbind outcome_bind app].
  rewrite (truncate_valid _ (Some global_start) (Some global_end)) by assumption.
  cbn [mbind outcome_bind]. rewrite Hsp, Hep. cbn [mbind outcome_bind].
  eexists. split; [reflexivity|]. simpl. done.
Qed.

End Find.

(** ** Positions and the length of their segment *)

(** C9. The range form never compares a position with the length of the
    segment it names: when both segments are selected and the linear
    offsets computed from the positions satisfy
    [0 <= keepStart < keepEndExclusive <= totalLength], parsing succeeds
    and the combined sequence is the slice between the two offsets,
    whatever the lengths of the two segments. *)
Theorem range_positions_unchecked (self : AtlasWriter)
    (selected_indices : list Z) (truncation : Py.str)
    (segA posA segB posB keepStart keepEndExclusive : Z) :
  reads_truncation truncation (RangeForm segA posA segB posB) ->
  segA ∈ selected_indices ->
  segB ∈ selected_indices ->
  present self selected_indices ->
  linear_start self selected_indices segA posA = Ok keepStart ->
  linear_end self selected_indices segB posB = Ok keepEndExclusive ->
  0 <= keepStart ->
  keepStart < keepEndExclusive ->
  keepEndExclusive <= Py.len (concatenation self selected_indices) ->
  parse_truncation self truncation selected_indices
    = Ok (Some keepStart, Some keepEndExclusive, None)
  /\ exists header,
       combine_segments self selected_indices
         (Some keepStart) (Some keepEndExclusive) None None
       = Ok (header,
             take (Z.to_nat (keepEndExclusive - keepStart))
               (drop (Z.to_nat keepStart)
                  (concatenation self selected_indices))).
Proof.
  intros Hr HA HB Hp Hs He H0 Hlt Hle. split.
  - rewrite (parse_truncation_range _ _ _ _ _ _ _ Hr).
    rewrite (mem_true _ _ HA), (mem_true _ _ HB), Hs, He. reflexivity.
  - assert (Hne : selected_indices <> []).
    { intros ->. by apply not_elem_of_nil in HA. }
    destruct (combine_window self selected_indices keepStart keepEndExclusive
                Hp Hne H0 Hlt Hle) as (r & Hr' & Hseq & _).
    exists (header_of r). unfold combine_segments. rewrite Hr'.
    cbn [mbind outcome_bind]. rewrite Hseq. reflexivity.
Qed.

Lemma reads_range_1_15_2_5 :
  reads_truncation (Py.lit "1:15-2:5") (RangeForm 1 15 2 5).
Proof. split; [reflexivity|]. eexists _, _. repeat split. Qed.

Lemma two_segments_present : present two_segments [1; 2].
Proof. repeat constructor; eexists; reflexivity. Qed.

(** Position 15 of the ten bases of segment 1 is base 5 of segment 2. *)
Lemma range_positions_unchecked_witness :
  Py.len (content two_segments 1) < 15
  /\ parse_truncation two_segments (Py.lit "1:15-2:5") [1; 2]
     = Ok (Some 14, Some 15, None)
  /\ exists header,
       combine_segments two_segments [1; 2] (Some 14) (Some 15) None None
       = Ok (header, Py.lit "T").
Proof.
  split; [reflexivity|].
  apply (range_positions_unchecked two_segments [1; 2] (Py.lit "1:15-2:5")
           1 15 2 5 14 15 reads_range_1_15_2_5).
  - apply list_elem_of_In. left. reflexivity.
  - apply list_elem_of_In. right. left. reflexivity.
  - apply two_segments_present.
  - reflexivity.
  - reflexivity.
  - lia.
  - lia.
  - vm_compute. discriminate.
Defined.

(** C10. The segment-relative tail directive compares its position with
    the length of the segment it names: when the position exceeds that
    length the directive fails with the range error, for every selection;
    for a selected segment the failure is the one of this comparison, and
    the linear cut offset is never computed. *)
Theorem tail_position_checked (self : AtlasWriter)
    (selected_indices : list Z) (poly_a : Py.str) (seg pos n : Z)
    (s : segment) :
  reads_tail poly_a (SegmentTail seg pos n) ->
  segment_data self !! seg = Some s ->
  Py.len (sequence s) < pos ->
  fails_with RangeError (parse_poly_a self poly_a selected_indices)
  /\ (seg ∈ selected_indices ->
      parse_poly_a self poly_a selected_indices = Exit PolyABeyondSegment).
Proof.
  intros Hr Hs Hpos. rewrite (parse_poly_a_segment _ _ _ _ _ _ Hr).
  rewrite (seq_len_Some _ _ _ Hs). cbn [mbind outcome_bind].
  destruct (Z.gtb_spec pos (Py.len (sequence s))); [|lia].
  destruct (decide (seg ∈ selected_indices)) as [Hin|Hout].
  - rewrite (mem_true _ _ Hin). simpl.
    split; [exists PolyABeyondSegment|]; done.
  - rewrite (mem_false _ _ Hout). simpl.
    split; [exists PolyANotSelected|]; done.
Qed.

Lemma reads_tail_1_15_2 : reads_tail (Py.lit "1:15/2") (SegmentTail 1 15 2).
Proof. eexists _, _. repeat split. Qed.

(** The cut offset 15 would lie within the thirty bases of the combined
    sequence. *)
Lemma tail_position_checked_witness :
  15 <= Py.len (concatenation two_segments [1; 2])
  /\ fails_with RangeError (parse_poly_a two_segments (Py.lit "1:15/2") [1; 2])
  /\ (1 ∈ [1; 2] ->
      parse_poly_a two_segments (Py.lit "1:15/2") [1; 2]
      = Exit PolyABeyondSegment).
Proof.
  split; [vm_compute; discriminate|].
  apply (tail_position_checked two_segments [1; 2] (Py.lit "1:15/2") 1 15 2
           seg_1_10 reads_tail_1_15_2).
  - reflexivity.
  - vm_compute. reflexivity.
Defined.

(** ** Segment boundaries, to linear offsets and back *)

Section Boundaries.

Variable self : AtlasWriter.
Variables (pre post : list Z) (k : Z) (sk : segment).

Hypothesis Hasc : ascending (pre ++ k :: post).
Hypothesis Hp : present self (pre ++ k :: post).
Hypothesis Hk : segment_data self !! k = Some sk.
Hypothesis Hne : sequence sk <> [].

Let before : Z := Py.len (concatenation self pre).

Lemma present_pre : present self pre.
Proof. unfold present in *. by apply Forall_app in Hp as [? _]. Qed.

Lemma sequence_positive : 0 < Py.len (sequence sk).
Proof. unfold Py.len. destruct (sequence sk); [done | simpl; lia]. Qed.

Lemma item_middle : item (pre ++ k :: post) (0 + length pre) = Ok k.
Proof. unfold item. simpl. rewrite list_lookup_middle by done. done. Qed.

Lemma first_base_linear :
  linear_start self (pre ++ k :: post) k 1 = Ok before.
Proof.
  unfold linear_start.
  rewrite (sum_len_before_ascending _ _ _ _ Hasc present_pre).
  cbn [mbind outcome_bind]. f_equal. unfold before. lia.
Qed.

Lemma first_base_reference :
  new_start_pos self (pre ++ k :: post) before = Ok (start sk).
Proof.
  unfold new_start_pos.
  rewrite (find_start_skip _ _ _ _ _ _ present_pre) by (fold before; lia).
  pose proof sequence_positive.
  rewrite find_start_here;
    [| by eexists | rewrite (content_Some _ _ _ Hk); fold before; lia].
  cbn [mbind outcome_bind]. rewrite item_middle. cbn [mbind outcome_bind].
  rewrite (data_Some _ _ _ Hk). cbn [mbind outcome_bind].
  f_equal. fold before. lia.
Qed.

Lemma last_base_linear :
  linear_end self (pre ++ k :: post) k (Py.len (sequence sk))
  = Ok (before + Py.len (sequence sk)).
Proof.
  unfold linear_end.
  rewrite (sum_len_before_ascending _ _ _ _ Hasc present_pre).
  reflexivity.
Qed.

Lemma last_base_reference :
  new_end_pos self (pre ++ k :: post) (before + Py.len (sequence sk))
  = Ok (start sk + Py.len (sequence sk) - 1).
Proof.
  unfold new_end_pos. pose proof sequence_positive.
  rewrite (find_end_skip _ _ _ _ _ _ present_pre) by (fold before; lia).
  rewrite find_end_here;
    [| by eexists | rewrite (content_Some _ _ _ Hk); fold before; lia].
  cbn [mbind outcome_bind]. rewrite item_middle. cbn [mbind outcome_bind].
  rewrite (data_Some _ _ _ Hk). cbn [mbind outcome_bind].
  f_equal. fold before. lia.
Qed.

End Boundaries.

(** C2 (as the program behaves). For a selected segment with at least one
    base, in an ascending selection of catalog segments: its first base,
    taken to a linear offset as the start of a range and back, gives the
    segment's [referenceStart]; its last base, taken to a linear offset as
    the end of a range and back, gives [referenceStart] plus the length of
    the content minus one, which is [referenceEnd] exactly when the content
    has [referenceEnd - referenceStart + 1] bases. *)
Theorem segment_boundaries_round_trip (self : AtlasWriter)
    (selected_indices : list Z) (k : Z) (sk : segment) :
  ascending selected_indices ->
  present self selected_indices ->
  k ∈ selected_indices ->
  segment_data self !! k = Some sk ->
  sequence sk <> [] ->
  exists first_offset last_offset,
    linear_start self selected_indices k 1 = Ok first_offset
    /\ new_start_pos self selected_indices first_offset = Ok (start sk)
    /\ linear_end self selected_indices k (Py.len (sequence sk))
       = Ok last_offset
    /\ new_end_pos self selected_indices last_offset
       = Ok (start sk + Py.len (sequence sk) - 1)
    /\ (new_end_pos self selected_indices last_offset = Ok (end_ sk)
        <-> Py.len (sequence sk) = end_ sk - start sk + 1).
Proof.
  intros Hasc Hp Hin Hk Hne.
  apply list_elem_of_split in Hin as (pre & post & ->).
  eexists _, _.
  split; [by eapply first_base_linear|].
  split; [by eapply first_base_reference|].
  split; [by eapply last_base_linear|].
  split; [by eapply last_base_reference|].
  rewrite (last_base_reference self pre post k sk Hp Hk Hne).
  split; [intros [= H]|intros H; f_equal]; lia.
Qed.

Lemma two_segments_ascending : ascending [1; 2].
Proof. repeat constructor. Qed.

Lemma segment_boundaries_round_trip_witness :
  exists first_offset last_offset,
    linear_start two_segments [1; 2] 2 1 = Ok first_offset
    /\ new_start_pos two_segments [1; 2] first_offset = Ok 11
    /\ linear_end two_segments [1; 2] 2 20 = Ok last_offset
    /\ new_end_pos two_segments [1; 2] last_offset = Ok (11 + 20 - 1)
    /\ (new_end_pos two_segments [1; 2] last_offset = Ok 30
        <-> 20 = 30 - 11 + 1).
Proof.
  apply (segment_boundaries_round_trip two_segments [1; 2] 2 seg_11_30).
  - apply two_segments_ascending.
  - apply two_segments_present.
  - apply list_elem_of_In. right. left. reflexivity.
  - reflexivity.
  - discriminate.
Defined.

(** C2 (as stated) fails: the header of the only segment announces
    [ACC:1-10], its content has four bases, and its last base comes back
    as reference position 4, not as [referenceEnd]. *)
Lemma last_base_misses_reference_end :
  segment_data short_catalog !! 1 = Some seg_short
  /\ end_ seg_short = 10
  /\ linear_end short_catalog [1] 1 (Py.len (sequence seg_short)) = Ok 4
  /\ new_end_pos short_catalog [1] 4 = Ok 4.
Proof. repeat split. Qed.

(** A segment without content has no first base: position 1 of the blank
    segment is the first base of the segment that follows it. *)
Example blank_segment_first_base :
  linear_start blank_catalog [1; 2] 1 1 = Ok 0
  /\ new_start_pos blank_catalog [1; 2] 0 = Ok 11
  /\ start seg_blank = 1.
Proof. repeat split. Qed.

(** The range that spans a whole segment, [k:1-k:L] with [L] the length
    of its content, cuts the combined sequence down to that content. *)
Lemma whole_segment_window (self : AtlasWriter) (pre post : list Z) (k : Z)
    (sk : segment) :
  present self (pre ++ k :: post) ->
  segment_data self !! k = Some sk ->
  take (Z.to_nat (Py.len (concatenation self pre) + Py.len (sequence sk)
                  - Py.len (concatenation self pre)))
    (drop (Z.to_nat (Py.len (concatenation self pre)))
       (concatenation self (pre ++ k :: post)))
  = sequence sk.
Proof.
  intros Hp Hk. rewrite concatenation_app, concatenation_cons.
  rewrite (content_Some _ _ _ Hk).
  replace (Z.to_nat (Py.len (concatenation self pre)))
    with (length (concatenation self pre)) by (unfold Py.len; lia).
  rewrite drop_app_length.
  replace (Z.to_nat _) with (length (sequence sk)) by (unfold Py.len; lia).
  by rewrite take_app_length.
Qed.

(** ** The selection parser *)

Lemma ascending_of_sorted (l : list Z) :
  StronglySorted Z.le l -> NoDup l -> ascending l.
Proof.
  unfold ascending. induction 1 as [|x l Hs IH Hx]; intros Hnd.
  - constructor.
  - apply NoDup_cons in Hnd as [Hnotin Hnd]. constructor; [by apply IH|].
    apply Forall_forall. intros y Hy.
    rewrite Forall_forall in Hx. specialize (Hx y Hy).
    assert (x <> y) by (intros ->; done). lia.
Qed.

Lemma sorted_set_elem (l : list Z) (x : Z) : x ∈ Py.sorted_set l <-> x ∈ l.
Proof.
  unfold Py.sorted_set. rewrite merge_sort_Permutation.
  rewrite elem_of_elements. apply elem_of_list_to_set.
Qed.

Lemma sorted_set_ascending (l : list Z) : ascending (Py.sorted_set l).
Proof.
  unfold Py.sorted_set. apply ascending_of_sorted.
  - apply (StronglySorted_merge_sort Z.le).
  - rewrite merge_sort_Permutation. apply NoDup_elements.
Qed.

Lemma range_elem (a b x : Z) : x ∈ Py.range a b <-> a <= x < b.
Proof. unfold Py.range. rewrite elem_of_seqZ. lia. Qed.

Section Selection.

Variable self : AtlasWriter.

Let size : Z := Py.len (segments self).

Lemma span_in_catalog (a b : Z) :
  a <= b -> (token_in_catalog self (Span a b) <-> 1 <= a /\ b <= size).
Proof.
  intros Hab. unfold token_in_catalog. simpl. rewrite Forall_forall. split.
  - intros H. pose proof (H a) as Ha. pose proof (H b) as Hb.
    rewrite range_elem in Ha, Hb. fold size in Ha, Hb. lia.
  - intros H x Hx. apply range_elem in Hx. fold size. lia.
Qed.

Lemma single_in_catalog (n : Z) :
  token_in_catalog self (Single n) <-> 1 <= n <= size.
Proof.
  unfold token_in_catalog. simpl. rewrite Forall_singleton. reflexivity.
Qed.

(** One token: accepted with its ids when it is ordered and in the
    catalog, rejected otherwise. *)
Lemma selection_part_spec (part : Py.str) (t : token) :
  reads_token part t ->
  (token_ordered t /\ token_in_catalog self t
   /\ selection_part self part = Ok (token_ids t))
  \/ (~ (token_ordered t /\ token_in_catalog self t)
      /\ fails_with SelectionError (selection_part self part)).
Proof.
  unfold selection_part. fold size.
  destruct t as [n | a b]; intros [Hc Hr]; rewrite Hc, Hr.
  - rewrite single_in_catalog.
    destruct (Z.ltb_spec n 1); simpl.
    { right. split; [lia | by exists InvalidSegmentIndex]. }
    destruct (Z.gtb_spec n size).
    { right. split; [lia | by exists InvalidSegmentIndex]. }
    left. simpl. repeat split; lia.
  - destruct (Z.ltb_spec a 1); simpl.
    { right. split; [|by exists InvalidRangeFormat].
      intros [Ho Hin]. apply span_in_catalog in Hin; [lia | exact Ho]. }
    destruct (Z.gtb_spec b size); simpl.
    { right. split; [|by exists InvalidRangeFormat].
      intros [Ho Hin]. apply span_in_catalog in Hin; [lia | exact Ho]. }
    destruct (Z.gtb_spec a b); simpl.
    { right. split; [|by exists InvalidRangeFormat]. intros [Ho _]. lia. }
    left. repeat split; [lia | apply span_in_catalog; lia].
Qed.

Lemma selection_loop_spec (parts : list Py.str) (tokens : list token)
    (acc : list Z) :
  Forall2 reads_token parts tokens ->
  (Forall (fun t => token_ordered t /\ token_in_catalog self t) tokens
   /\ selection_loop self parts acc
      = Ok (acc ++ concat (token_ids <$> tokens)))
  \/ (~ Forall (fun t => token_ordered t /\ token_in_catalog self t) tokens
      /\ fails_with SelectionError (selection_loop self parts acc)).
Proof.
  intros Hr. revert acc.
  induction Hr as [|part t parts tokens Hpart _ IH]; intros acc.
  - left. split; [constructor|]. simpl. by rewrite app_nil_r.
  - simpl. destruct (selection_part_spec part t Hpart)
      as [(Ho & Hin & ->) | (Hbad & e & -> & He)].
    + cbn [mbind outcome_bind].
      destruct (IH (acc ++ token_ids t)) as [[Hall ->] | [Hnot Hfail]].
      * left. split; [by constructor|]. by rewrite app_assoc.
      * right. split; [|exact Hfail].
        intros Hall. apply Forall_cons in Hall as [_ Hall]. done.
    + right. split; [|by exists e].
      intros Hall. apply Forall_cons in Hall as [Hall _]. done.
Qed.

Lemma elem_of_token_ids (tokens : list token) (id : Z) :
  id ∈ concat (token_ids <$> tokens)
  <-> exists t, t ∈ tokens /\ id ∈ token_ids t.
Proof.
  rewrite list_elem_of_In, in_concat. split.
  - intros (l & Hl & Hid). apply list_elem_of_In in Hl, Hid.
    apply list_elem_of_fmap in Hl as (t & -> & Ht). eauto.
  - intros (t & Ht & Hid). exists (token_ids t).
    rewrite <- !list_elem_of_In. split; [|exact Hid].
    apply list_elem_of_fmap. eauto.
Qed.

Lemma parse_segment_selection_spec (selection : Py.str)
    (tokens : list token) :
  reads_selection selection tokens ->
  (Forall (fun t => token_ordered t /\ token_in_catalog self t) tokens
   /\ parse_segment_selection self selection
      = Ok (Py.sorted_set (concat (token_ids <$> tokens))))
  \/ (~ Forall (fun t => token_ordered t /\ token_in_catalog self t) tokens
      /\ fails_with SelectionError (parse_segment_selection self selection)).
Proof.
  intros Hr. unfold parse_segment_selection.
  destruct (selection_loop_spec _ _ [] Hr)
    as [[Hall ->] | (Hnot & e & -> & He)].
  - left. split; [exact Hall | reflexivity].
  - right. split; [exact Hnot | by exists e].
Qed.

End Selection.

Lemma reads_inverted_range : reads_selection (Py.lit "2-1") [Span 2 1].
Proof. repeat constructor. Qed.

Lemma reads_single_5 : reads_selection (Py.lit "5") [Single 5].
Proof. repeat constructor. Qed.

(** C7. For a selection expression whose comma-separated tokens are single
    ids and ordered ranges: when every id referred to lies between 1 and
    the size of the catalog, the parser returns the ascending list,
    without repeats, of exactly the ids referred to; otherwise it fails
    with the selection error.  The inverted range [2-1] fails on every
    catalog, and [5] fails on a catalog of two segments. *)
Theorem selection_parser_correct (self : AtlasWriter) :
  (forall selection tokens,
      reads_selection selection tokens ->
      Forall token_ordered tokens ->
      (Forall (token_in_catalog self) tokens ->
       exists ids,
         parse_segment_selection self selection = Ok ids
         /\ ascending ids
         /\ forall id, id ∈ ids <-> exists t, t ∈ tokens /\ id ∈ token_ids t)
      /\ (~ Forall (token_in_catalog self) tokens ->
          fails_with SelectionError (parse_segment_selection self selection)))
  /\ fails_with SelectionError (parse_segment_selection self (Py.lit "2-1"))
  /\ (Py.len (segments self) = 2 ->
      fails_with SelectionError (parse_segment_selection self (Py.lit "5"))).
Proof.
  split; [|split].
  - intros selection tokens Hr Hord.
    destruct (parse_segment_selection_spec self _ _ Hr)
      as [[Hall ->] | [Hnot Hfail]].
    + split.
      * intros _. eexists. split; [reflexivity|].
        split; [apply sorted_set_ascending|].
        intros id. rewrite sorted_set_elem. apply elem_of_token_ids.
      * intros Hnot. destruct Hnot.
        eapply Forall_impl; [exact Hall|]. simpl. tauto.
    + split.
      * intros Hin. destruct Hnot. rewrite Forall_forall in *. auto.
      * intros _. exact Hfail.
  - destruct (parse_segment_selection_spec self _ _ reads_inverted_range)
      as [[Hall _] | [_ Hfail]]; [|exact Hfail].
    apply Forall_cons in Hall as [[Ho _] _]. simpl in Ho. lia.
  - intros Hsize.
    destruct (parse_segment_selection_spec self _ _ reads_single_5)
      as [[Hall _] | [_ Hfail]]; [|exact Hfail].
    apply Forall_cons in Hall as [[_ Hin] _].
    apply single_in_catalog in Hin. lia.
Qed.

Lemma reads_selection_2_12_1 :
  reads_selection (Py.lit "2,1-2,1") [Single 2; Span 1 2; Single 1].
Proof. repeat constructor. Qed.

Lemma selection_parser_correct_witness :
  (exists ids,
      parse_segment_selection two_segments (Py.lit "2,1-2,1") = Ok ids
      /\ ascending ids
      /\ forall id,
           id ∈ ids
           <-> exists t, t ∈ [Single 2; Span 1 2; Single 1] /\ id ∈ token_ids t)
  /\ fails_with SelectionError
       (parse_segment_selection two_segments (Py.lit "2-1"))
  /\ fails_with SelectionError
       (parse_segment_selection two_segments (Py.lit "5")).
Proof.
  destruct (selection_parser_correct two_segments) as (Hgen & Hinv & Hfive).
  split; [|split; [exact Hinv | apply Hfive; reflexivity]].
  apply (Hgen _ _ reads_selection_2_12_1).
  - repeat constructor. simpl. lia.
  - repeat constructor; vm_compute; discriminate.
Defined.

Example selection_2_12_1 :
  parse_segment_selection two_segments (Py.lit "2,1-2,1") = Ok [1; 2].
Proof. vm_compute. reflexivity. Qed.

(** ** The scenario of the specification *)

Section Scenario.

Variables h1 c1 h2 c2 : Py.str.
Hypothesis Hc1 : Py.len c1 = 100.
Hypothesis Hc2 : Py.len c2 = 200.

Let cat : AtlasWriter := acc_catalog h1 c1 h2 c2.

Lemma scenario_data_1 :
  segment_data cat !! 1 = Some (Segment (Py.lit "ACC") 1 100 h1 c1).
Proof. reflexivity. Qed.

Lemma scenario_data_2 :
  segment_data cat !! 2 = Some (Segment (Py.lit "ACC") 101 300 h2 c2).
Proof. reflexivity. Qed.

Lemma scenario_present : present cat [1; 2].
Proof. repeat constructor; eexists; reflexivity. Qed.

Lemma scenario_concatenation : concatenation cat [1; 2] = c1 ++ c2.
Proof.
  unfold concatenation. simpl.
  rewrite (content_Some _ _ _ scenario_data_1).
  rewrite (content_Some _ _ _ scenario_data_2).
  simpl. by rewrite app_nil_r.
Qed.

Lemma scenario_selection :
  parse_segment_selection cat (Py.lit "1,2") = Ok [1; 2].
Proof. vm_compute. reflexivity. Qed.

Lemma scenario_truncation :
  parse_truncation cat (Py.lit "1:50-2:20") [1; 2]
  = Ok (Some 49, Some 120, None).
Proof.
  rewrite (parse_truncation_range _ _ _ 1 50 2 20).
  2:{ split; [reflexivity|]. eexists _, _. repeat split. }
  change (negb (Py.mem 1 [1; 2]) || negb (Py.mem 2 [1; 2])) with false.
  cbv iota. unfold linear_start, linear_end. simpl sum_len_before.
  rewrite (seq_len_Some _ _ _ scenario_data_1). simpl sequence.
  rewrite Hc1. reflexivity.
Qed.

Lemma scenario_new_start_pos : new_start_pos cat [1; 2] 49 = Ok 50.
Proof.
  unfold new_start_pos. simpl find_start.
  rewrite (seq_len_Some _ _ _ scenario_data_1). simpl sequence.
  rewrite Hc1. cbn [mbind outcome_bind]. simpl.
  rewrite (data_Some _ _ _ scenario_data_1). reflexivity.
Qed.

Lemma scenario_new_end_pos : new_end_pos cat [1; 2] 120 = Ok 120.
Proof.
  unfold new_end_pos. simpl find_end.
  rewrite (seq_len_Some _ _ _ scenario_data_1). simpl sequence.
  rewrite Hc1. cbn [mbind outcome_bind]. simpl.
  rewrite (seq_len_Some _ _ _ scenario_data_2). simpl sequence.
  rewrite Hc2. cbn [mbind outcome_bind]. simpl.
  rewrite (data_Some _ _ _ scenario_data_2). reflexivity.
Qed.

Lemma scenario_length : Py.len (c1 ++ c2) = 300.
Proof. rewrite len_app. lia. Qed.

Lemma scenario_combine (global_start global_end : option Z)
    (truncated : Py.str) (start_pos end_pos : Z) :
  truncate (c1 ++ c2) global_start global_end = Ok truncated ->
  match global_start with
  | Some gs => new_start_pos cat [1; 2] gs
  | None => Ok 1
  end = Ok start_pos ->
  match global_end with
  | Some ge => new_end_pos cat [1; 2] ge
  | None => Ok 300
  end = Ok end_pos ->
  combine cat [1; 2] global_start global_end None None
  = Ok (Combined (Py.lit "ACC") start_pos end_pos
          (if truncation_given global_start global_end
           then Py.lit "Combined locus segments 1,2 (truncated)"
           else Py.lit "Combined locus segments 1,2")
          truncated).
Proof.
  intros Ht Hs He. unfold combine.
  rewrite (data_Some _ _ _ scenario_data_1). cbn [mbind outcome_bind].
  change (List.last [1; 2] 1) with 2.
  rewrite (data_Some _ _ _ scenario_data_2). cbn [mbind outcome_bind].
  rewrite (combine_loop_present _ _ _ scenario_present).
  rewrite scenario_concatenation. cbn [mbind outcome_bind app].
  rewrite Ht. cbn [mbind outcome_bind]. simpl start. simpl end_.
  rewrite Hs, He. cbn [mbind outcome_bind].
  destruct (truncation_given global_start global_end); reflexivity.
Qed.

(** C1. With segment 1 ([ACC:1-100], 100 bases) and segment 2
    ([ACC:101-300], 200 bases): the selection [1,2] gives a concatenated
    sequence of length 300; the truncation [1:50-2:20] resolves to
    [keepStart = 49] and [keepEndExclusive = 120]; the kept slice has
    length 71 and the header of the result carries the reference range
    [ACC.1:50-120]. *)
Theorem scenario_range_truncation :
  parse_segment_selection cat (Py.lit "1,2") = Ok [1; 2]
  /\ combine_segments cat [1; 2] None None None None
     = Ok (Py.lit ">ACC.1:1-300 Combined locus segments 1,2", c1 ++ c2)
  /\ Py.len (c1 ++ c2) = 300
  /\ parse_truncation cat (Py.lit "1:50-2:20") [1; 2]
     = Ok (Some 49, Some 120, None)
  /\ exists kept,
       main cat (Some (Py.lit "1,2")) (Some (Py.lit "1:50-2:20")) None
       = Ok (Py.lit ">ACC.1:50-120 Combined locus segments 1,2 (truncated)",
             kept)
       /\ kept = take 71 (drop 49 (c1 ++ c2))
       /\ Py.len kept = 71.
Proof.
  pose proof scenario_length as Hlen.
  split; [exact scenario_selection|].
  split.
  { unfold combine_segments.
    rewrite (scenario_combine None None (c1 ++ c2) 1 300); reflexivity. }
  split; [exact Hlen|].
  split; [exact scenario_truncation|].
  exists (take 71 (drop 49 (c1 ++ c2))).
  split; [|split; [reflexivity|]].
  - unfold main.
    change (given (Some (Py.lit "1,2"))) with (Some (Py.lit "1,2")).
    change (given (Some (Py.lit "1:50-2:20")))
      with (Some (Py.lit "1:50-2:20")).
    change (given None) with (@None Py.str).
    cbv iota. rewrite scenario_selection.
    cbn [mbind outcome_bind]. rewrite scenario_truncation.
    cbn [mbind outcome_bind]. unfold combine_segments.
    rewrite (scenario_combine (Some 49) (Some 120)
               (take 71 (drop 49 (c1 ++ c2))) 50 120).
    + reflexivity.
    + rewrite (truncate_valid (c1 ++ c2) (Some 49) (Some 120)); simpl; try lia.
      reflexivity.
    + exact scenario_new_start_pos.
    + exact scenario_new_end_pos.
  - change 71%nat with (Z.to_nat (120 - 49)).
    change 49%nat with (Z.to_nat 49).
    rewrite window_length; lia.
Qed.

End Scenario.

Lemma scenario_range_truncation_witness :
  let c1 := replicate 100 "C"%char in
  let c2 := replicate 200 "G"%char in
  let cat := acc_catalog (Py.lit ">ACC:1-100") c1 (Py.lit ">ACC:101-300") c2 in
  parse_segment_selection cat (Py.lit "1,2") = Ok [1; 2]
  /\ combine_segments cat [1; 2] None None None None
     = Ok (Py.lit ">ACC.1:1-300 Combined locus segments 1,2", c1 ++ c2)
  /\ Py.len (c1 ++ c2) = 300
  /\ parse_truncation cat (Py.lit "1:50-2:20") [1; 2]
     = Ok (Some 49, Some 120, None)
  /\ exists kept,
       main cat (Some (Py.lit "1,2")) (Some (Py.lit "1:50-2:20")) None
       = Ok (Py.lit ">ACC.1:50-120 Combined locus segments 1,2 (truncated)",
             kept)
       /\ kept = take 71 (drop 49 (c1 ++ c2))
       /\ Py.len kept = 71.
Proof.
  apply (scenario_range_truncation (Py.lit ">ACC:1-100")
           (replicate 100 "C"%char) (Py.lit ">ACC:101-300")
           (replicate 200 "G"%char)).
  - vm_compute. reflexivity.
  - vm_compute. reflexivity.
Defined.

(** ** The parsers on spelled expressions *)

Corollary spelled_selection_parsed (self : AtlasWriter) (tokens : list token) :
  tokens <> [] ->
  Forall (fun t => unsigned (token_numbers t)) tokens ->
  Forall (fun t => token_ordered t /\ token_in_catalog self t) tokens ->
  parse_segment_selection self (spell_selection tokens)
  = Ok (Py.sorted_set (concat (token_ids <$> tokens))).
Proof.
  intros Hne Hun Hall.
  destruct (parse_segment_selection_spec self _ _
              (reads_spelled_selection tokens Hne Hun)) as [[_ H] | [H _]];
    done.
Qed.

Corollary spelled_truncation_unselected (self : AtlasWriter)
    (selected_indices : list Z) (f : truncation_form) :
  unsigned (truncation_numbers f) ->
  (exists seg, seg ∈ truncation_segments f /\ seg ∉ selected_indices) ->
  parse_truncation self (spell_truncation f) selected_indices
  = Exit TruncationNotSelected.
Proof.
  intros Hun. apply truncation_unselected. by apply reads_spelled_truncation.
Qed.

Corollary spelled_tail_unselected (self : AtlasWriter)
    (selected_indices : list Z) (seg pos n : Z) :
  0 <= seg -> 0 <= pos -> 0 <= n ->
  seg ∉ selected_indices ->
  parse_poly_a self (spell_tail (SegmentTail seg pos n)) selected_indices
  = Exit PolyANotSelected.
Proof.
  intros Hs Hp Hn. apply (tail_unselected _ _ _ seg pos n).
  apply reads_spelled_tail.
  by repeat constructor.
Qed.

Corollary spelled_global_tail (self : AtlasWriter)
    (selected_indices : list Z) (pos n : Z) :
  0 <= pos -> 0 <= n ->
  parse_poly_a self (spell_tail (GlobalTail pos n)) selected_indices
  = Ok (Some pos, Some n).
Proof.
  intros Hp Hn. apply parse_poly_a_global, reads_spelled_tail.
  by repeat constructor.
Qed.

(** ** Every base of a segment, to a linear offset and back *)

Section Bases.

Variable self : AtlasWriter.
Variables (pre post : list Z) (k : Z) (sk : segment) (p : Z).

Hypothesis Hasc : ascending (pre ++ k :: post).
Hypothesis Hp : present self (pre ++ k :: post).
Hypothesis Hk : segment_data self !! k = Some sk.
Hypothesis Hpos : 1 <= p <= Py.len (sequence sk).

Let before : Z := Py.len (concatenation self pre).

Lemma base_linear_start :
  linear_start self (pre ++ k :: post) k p = Ok (before + (p - 1)).
Proof.
  unfold linear_start.
  rewrite (sum_len_before_ascending _ _ _ _ Hasc (present_pre _ _ _ _ Hp)).
  reflexivity.
Qed.

Lemma base_linear_end :
  linear_end self (pre ++ k :: post) k p = Ok (before + p).
Proof.
  unfold linear_end.
  rewrite (sum_len_before_ascending _ _ _ _ Hasc (present_pre _ _ _ _ Hp)).
  reflexivity.
Qed.

Lemma base_reference_start :
  new_start_pos self (pre ++ k :: post) (before + (p - 1))
  = Ok (start sk + (p - 1)).
Proof.
  unfold new_start_pos.
  rewrite (find_start_skip _ _ _ _ _ _ (present_pre _ _ _ _ Hp))
    by (fold before; lia).
  rewrite find_start_here;
    [| by eexists | rewrite (content_Some _ _ _ Hk); fold before; lia].
  cbn [mbind outcome_bind]. rewrite item_middle. cbn [mbind outcome_bind].
  rewrite (data_Some _ _ _ Hk). cbn [mbind outcome_bind].
  f_equal. fold before. lia.
Qed.

Lemma base_reference_end :
  new_end_pos self (pre ++ k :: post) (before + p) = Ok (start sk + (p - 1)).
Proof.
  unfold new_end_pos.
  rewrite (find_end_skip _ _ _ _ _ _ (present_pre _ _ _ _ Hp))
    by (fold before; lia).
  rewrite find_end_here;
    [| by eexists | rewrite (content_Some _ _ _ Hk); fold before; lia].
  cbn [mbind outcome_bind]. rewrite item_middle. cbn [mbind outcome_bind].
  rewrite (data_Some _ _ _ Hk). cbn [mbind outcome_bind].
  f_equal. fold before. lia.
Qed.

End Bases.

(** X1. In an ascending selection of catalog segments, base [p] of a
    selected segment comes back as reference position
    [referenceStart + p - 1] under both conventions: as the start of a
    range (offset [prefix + p - 1], found with the strict test) and as the
    end of a range (offset [prefix + p], found with the weak test). *)
Theorem every_base_round_trip (self : AtlasWriter)
    (selected_indices : list Z) (k : Z) (sk : segment) (p : Z) :
  ascending selected_indices ->
  present self selected_indices ->
  k ∈ selected_indices ->
  segment_data self !! k = Some sk ->
  1 <= p <= Py.len (sequence sk) ->
  exists start_offset end_offset,
    linear_start self selected_indices k p = Ok start_offset
    /\ linear_end self selected_indices k p = Ok end_offset
    /\ end_offset = start_offset + 1
    /\ new_start_pos self selected_indices start_offset
       = Ok (start sk + (p - 1))
    /\ new_end_pos self selected_indices end_offset
       = Ok (start sk + (p - 1)).
Proof.
  intros Hasc Hp Hin Hk Hpos.
  apply list_elem_of_split in Hin as (pre & post & ->).
  eexists _, _.
  split; [by eapply base_linear_start|].
  split; [by eapply base_linear_end|].
  split; [lia|].
  split; [by eapply base_reference_start | by eapply base_reference_end].
Qed.

Lemma every_base_round_trip_witness :
  exists start_offset end_offset,
    linear_start two_segments [1; 2] 2 7 = Ok start_offset
    /\ linear_end two_segments [1; 2] 2 7 = Ok end_offset
    /\ end_offset = start_offset + 1
    /\ new_start_pos two_segments [1; 2] start_offset = Ok (11 + (7 - 1))
    /\ new_end_pos two_segments [1; 2] end_offset = Ok (11 + (7 - 1)).
Proof.
  apply (every_base_round_trip two_segments [1; 2] 2 seg_11_30 7).
  - apply two_segments_ascending.
  - apply two_segments_present.
  - apply list_elem_of_In. right. left. reflexivity.
  - reflexivity.
  - vm_compute. split; discriminate.
Defined.

(** ** Selected ids and the keys of the catalog *)

Lemma data_None (self : AtlasWriter) (i : Z) :
  segment_data self !! i = None -> data self i = Raise (KeyError i).
Proof. intros H. unfold data. rewrite H. reflexivity. Qed.

Lemma combine_loop_missing (self : AtlasWriter) (indices : list Z)
    (acc : Py.str) :
  ~ present self indices ->
  exists k,
    k ∈ indices /\ segment_data self !! k = None
    /\ combine_loop self indices acc = Raise (KeyError k).
Proof.
  revert acc. induction indices as [|i indices IH]; intros acc Hnot.
  - destruct Hnot. constructor.
  - simpl. unfold data. destruct (segment_data self !! i) as [s|] eqn:Hi.
    + cbn [mbind outcome_bind].
      destruct (IH (acc ++ sequence s)) as (k & Hk & Hnone & Hraise).
      { intros Hrest. apply Hnot. constructor; [by eexists | exact Hrest]. }
      exists k. split; [by right | done].
    + exists i. split; [by left | done].
Qed.

(** X2. A selection that holds an id without an entry in
    [self.segment_data] makes [combine_segments] raise [KeyError] for such
    an id, whatever the truncation and the tail asked for: no exit
    message, no result. *)
Theorem combine_missing_key (self : AtlasWriter) (indices : list Z)
    (global_start global_end poly_a_pos poly_a_count : option Z) (k0 : Z) :
  k0 ∈ indices ->
  segment_data self !! k0 = None ->
  exists k,
    k ∈ indices /\ segment_data self !! k = None
    /\ combine_segments self indices global_start global_end
         poly_a_pos poly_a_count = Raise (KeyError k).
Proof.
  intros Hin Hnone.
  assert (Hnot : ~ present self indices).
  { intros Hp. unfold present in Hp. rewrite Forall_forall in Hp.
    destruct (Hp k0 Hin) as [s Hs]. congruence. }
  unfold combine_segments, combine.
  destruct indices as [|first rest]; [by apply not_elem_of_nil in Hin|].
  destruct (segment_data self !! first) as [s1|] eqn:H1.
  2:{ exists first. rewrite (data_None _ _ H1).
      split; [by left | split; [done | reflexivity]]. }
  rewrite (data_Some _ _ _ H1). cbn [mbind outcome_bind].
  destruct (segment_data self !! List.last (first :: rest) first)
    as [sl|] eqn:Hl.
  2:{ exists (List.last (first :: rest) first). rewrite (data_None _ _ Hl).
      split; [|split; [done | reflexivity]].
      apply list_elem_of_In.
      destruct (exists_last (l := first :: rest)) as (l' & a & Heq); [done|].
      rewrite Heq, last_last. apply in_or_app. right. by left. }
  rewrite (data_Some _ _ _ Hl). cbn [mbind outcome_bind].
  destruct (combine_loop_missing self (first :: rest) [] Hnot)
    as (k & Hk & Hknone & ->).
  exists k. split; [done | split; [done | reflexivity]].
Qed.

Lemma combine_missing_key_witness :
  exists k,
    k ∈ [1; 2] /\ segment_data short_catalog !! k = None
    /\ combine_segments short_catalog [1; 2] None (Some 3) None None
       = Raise (KeyError k).
Proof.
  apply (combine_missing_key short_catalog [1; 2] None (Some 3) None None 2).
  - apply list_elem_of_In. right. left. reflexivity.
  - reflexivity.
Defined.

(** With every selected id in the catalog, [combine_segments] without a
    tail returns what the truncation step makes of the concatenation. *)
Lemma combine_truncated (self : AtlasWriter) (indices : list Z)
    (global_start global_end : option Z) (truncated : Py.str) :
  present self indices -> indices <> [] ->
  truncate (concatenation self indices) global_start global_end
    = Ok truncated ->
  exists r,
    combine self indices global_start global_end None None = Ok r
    /\ c_sequence r = truncated.
Proof.
  intros Hp Hne Ht.
  unfold combine. destruct indices as [|first rest]; [done|].
  pose proof Hp as Hp'. apply Forall_cons in Hp' as [[s1 Hs1] _].
  rewrite (data_Some _ _ _ Hs1). cbn [mbind outcome_bind].
  assert (Hlast : is_Some (segment_data self !! List.last (first :: rest) first)).
  { unfold present in Hp. rewrite Forall_forall in Hp. apply Hp.
    apply list_elem_of_In.
    destruct (exists_last (l := first :: rest)) as (l' & a & Heq); [done|].
    rewrite Heq, last_last. apply in_or_app. right. left. reflexivity. }
  destruct Hlast as [sl Hsl]. rewrite (data_Some _ _ _ Hsl).
  cbn [mbind outcome_bind].
  rewrite (combine_loop_present _ _ _ Hp). cbn [mbind outcome_bind app].
  rewrite Ht. cbn [mbind outcome_bind].
  destruct global_start as [gs|].
  - destruct (new_start_pos_total self (first :: rest) gs Hp Hne) as [sp ->].
    cbn [mbind outcome_bind]. destruct global_end as [ge|].
    + destruct (new_end_pos_total self (first :: rest) ge Hp Hne) as [ep ->].
      cbn [mbind outcome_bind]. eexists. split; reflexivity.
    + cbn [mbind outcome_bind]. eexists. split; reflexivity.
  - cbn [mbind outcome_bind]. destruct global_end as [ge|].
    + destruct (new_end_pos_total self (first :: rest) ge Hp Hne) as [ep ->].
      cbn [mbind outcome_bind]. eexists. split; reflexivity.
    + cbn [mbind outcome_bind]. eexists. split; reflexivity.
Qed.

(** ** What a parsed selection is *)

Section SelectionResult.

Variable self : AtlasWriter.

Let in_catalog (id : Z) : Prop := 1 <= id <= Py.len (segments self).

Lemma selection_part_ok (part : Py.str) (ids : list Z) :
  selection_part self part = Ok ids ->
  ids <> [] /\ Forall in_catalog ids.
Proof.
  unfold selection_part, in_catalog.
  destruct (Py.contains "-" part).
  - destruct (Py.int_pair "-" part) as [[a b]|]; [|discriminate].
    destruct (Z.ltb_spec a 1); [discriminate|].
    destruct (Z.gtb_spec b (Py.len (segments self))); [discriminate|].
    destruct (Z.gtb_spec a b); [discriminate|].
    simpl. intros [= <-]. split.
    + intros Hnil. assert (Ha : a ∈ Py.range a (b + 1)) by (apply range_elem; lia).
      rewrite Hnil in Ha. by apply not_elem_of_nil in Ha.
    + apply Forall_forall. intros x Hx%range_elem. lia.
  - destruct (Py.int part) as [n|]; [|discriminate].
    destruct (Z.ltb_spec n 1); [discriminate|].
    destruct (Z.gtb_spec n (Py.len (segments self))); [discriminate|].
    simpl. intros [= <-]. split; [done|]. apply Forall_singleton. lia.
Qed.

Lemma selection_loop_ok (parts : list Py.str) (acc l : list Z) :
  selection_loop self parts acc = Ok l ->
  exists extra,
    l = acc ++ extra /\ Forall in_catalog extra
    /\ (parts <> [] -> extra <> []).
Proof.
  revert acc. induction parts as [|part parts IH]; intros acc; simpl.
  - intros [= <-]. exists []. by rewrite app_nil_r.
  - intros (ids & Hids & Hloop)%bind_Ok.
    apply selection_part_ok in Hids as [Hne Hall].
    apply IH in Hloop as (extra & -> & Hextra & _).
    exists (ids ++ extra). split; [by rewrite app_assoc|].
    split; [by apply Forall_app|].
    intros _ Hnil. by apply app_eq_nil in Hnil as [? _].
Qed.

Lemma parse_segment_selection_ok (selection : Py.str) (ids : list Z) :
  parse_segment_selection self selection = Ok ids ->
  exists l,
    ids = Py.sorted_set l /\ l <> [] /\ Forall in_catalog l.
Proof.
  unfold parse_segment_selection.
  intros (l & Hloop & [= <-])%bind_Ok.
  apply selection_loop_ok in Hloop as (extra & -> & Hextra & Hne).
  exists extra. split; [reflexivity|].
  split; [apply Hne, split_nonempty | exact Hextra].
Qed.

End SelectionResult.

(** X3. Whatever the selection expression, a list that
    [parse_segment_selection] returns is not empty, is strictly ascending,
    and holds only ids between 1 and [len(self.segments)]: the test for an
    empty selection in [combine_segments] never fires on it. *)
Theorem parsed_selection_invariants (self : AtlasWriter) (selection : Py.str)
    (ids : list Z) :
  parse_segment_selection self selection = Ok ids ->
  ids <> []
  /\ ascending ids
  /\ Forall (fun id => 1 <= id <= Py.len (segments self)) ids.
Proof.
  intros (l & -> & Hne & Hall)%parse_segment_selection_ok.
  cbv zeta in Hall. split; [|split].
  - destruct l as [|x l]; [done|]. intros Hnil.
    assert (Hx : x ∈ Py.sorted_set (x :: l))
      by (apply sorted_set_elem; by left).
    rewrite Hnil in Hx. by apply not_elem_of_nil in Hx.
  - apply sorted_set_ascending.
  - apply Forall_forall. intros x Hx. rewrite sorted_set_elem in Hx.
    rewrite Forall_forall in Hall. by apply Hall.
Qed.

Lemma parsed_selection_invariants_witness :
  [1; 2] <> []
  /\ ascending [1; 2]
  /\ Forall (fun id => 1 <= id <= Py.len (segments two_segments)) [1; 2].
Proof.
  apply (parsed_selection_invariants two_segments (Py.lit "2,1-2,1") [1; 2]).
  vm_compute. reflexivity.
Defined.

Lemma parse_empty_selection (self : AtlasWriter) :
  parse_segment_selection self [] = Exit InvalidSegmentIndex.
Proof. reflexivity. Qed.

(** X4. On a catalog in which every id from 1 to [len(self.segments)] has
    an entry, every selection the parser accepts is combined without
    error, and without truncation or tail the sequence returned is the
    contents of the selected segments joined in ascending id order. *)
Theorem accepted_selection_combines (self : AtlasWriter)
    (selection : Py.str) (ids : list Z) :
  (forall i, 1 <= i <= Py.len (segments self) ->
             is_Some (segment_data self !! i)) ->
  parse_segment_selection self selection = Ok ids ->
  exists header,
    main self (Some selection) None None
    = Ok (header, concatenation self ids).
Proof.
  intros Hfull Hparse.
  destruct (parse_segment_selection_ok self _ _ Hparse)
    as (l & -> & Hne & Hall).
  cbv zeta in Hall.
  assert (Hp : present self (Py.sorted_set l)).
  { apply Forall_forall. intros x Hx. rewrite sorted_set_elem in Hx.
    rewrite Forall_forall in Hall. by apply Hfull, Hall. }
  assert (Hne' : Py.sorted_set l <> []).
  { destruct l as [|x l]; [done|]. intros Hnil.
    assert (Hx : x ∈ Py.sorted_set (x :: l))
      by (apply sorted_set_elem; by left).
    rewrite Hnil in Hx. by apply not_elem_of_nil in Hx. }
  destruct (combine_truncated self (Py.sorted_set l) None None
              (concatenation self (Py.sorted_set l)) Hp Hne' eq_refl)
    as (r & Hr & Hseq).
  exists (header_of r). unfold main.
  destruct selection as [|c s].
  { rewrite parse_empty_selection in Hparse. discriminate. }
  cbn [given]. rewrite Hparse. cbn [mbind outcome_bind].
  unfold combine_segments. rewrite Hr. cbn [mbind outcome_bind].
  by rewrite Hseq.
Qed.

Lemma accepted_selection_combines_witness :
  exists header,
    main two_segments (Some (Py.lit "2,1")) None None
    = Ok (header, concatenation two_segments [1; 2]).
Proof.
  apply (accepted_selection_combines two_segments (Py.lit "2,1") [1; 2]).
  - intros i Hi. change (Py.len (segments two_segments)) with 2 in Hi.
    assert (i = 1 \/ i = 2) as [-> | ->] by lia; eexists; reflexivity.
  - vm_compute. reflexivity.
Defined.

Lemma sorted_set_ext (l1 l2 : list Z) :
  (forall x, x ∈ l1 <-> x ∈ l2) -> Py.sorted_set l1 = Py.sorted_set l2.
Proof.
  intros H. unfold Py.sorted_set. f_equal. f_equal.
  apply set_eq. intros x. rewrite !elem_of_list_to_set. apply H.
Qed.

(** X5. The result of the selection parser depends only on the set of ids
    the tokens refer to, not on their order, their repetition or their
    grouping into ranges: two accepted expressions that refer to the same
    ids give the same list. *)
Theorem selection_depends_on_ids_only (self : AtlasWriter)
    (selection1 selection2 : Py.str) (tokens1 tokens2 : list token)
    (ids1 ids2 : list Z) :
  reads_selection selection1 tokens1 ->
  reads_selection selection2 tokens2 ->
  (forall id,
      (exists t, t ∈ tokens1 /\ id ∈ token_ids t)
      <-> (exists t, t ∈ tokens2 /\ id ∈ token_ids t)) ->
  parse_segment_selection self selection1 = Ok ids1 ->
  parse_segment_selection self selection2 = Ok ids2 ->
  ids1 = ids2.
Proof.
  intros Hr1 Hr2 Hsame H1 H2.
  destruct (parse_segment_selection_spec self _ _ Hr1)
    as [[_ He1] | (_ & e & He & _)]; [|congruence].
  destruct (parse_segment_selection_spec self _ _ Hr2)
    as [[_ He2] | (_ & e & He & _)]; [|congruence].
  rewrite He1 in H1. rewrite He2 in H2.
  injection H1 as <-. injection H2 as <-.
  apply sorted_set_ext. intros x. rewrite !elem_of_token_ids. apply Hsame.
Qed.

Lemma reads_selection_12 :
  reads_selection (Py.lit "1,2") [Single 1; Single 2].
Proof. repeat constructor. Qed.

Lemma selection_depends_on_ids_only_witness : [1; 2] = [1; 2].
Proof.
  apply (selection_depends_on_ids_only two_segments
           (Py.lit "2,1-2,1") (Py.lit "1,2")
           [Single 2; Span 1 2; Single 1] [Single 1; Single 2]
           [1; 2] [1; 2] reads_selection_2_12_1 reads_selection_12).
  - intros id. split; intros (t & Ht & Hid).
    + assert (Hid' : id = 1 \/ id = 2).
      { apply list_elem_of_In in Ht. simpl in Ht.
        destruct Ht as [<-|[<-|[<-|[]]]]; simpl in Hid;
          try apply range_elem in Hid;
          try apply list_elem_of_singleton in Hid; lia. }
      destruct Hid' as [-> | ->].
      * exists (Single 1). split; [by left | by left].
      * exists (Single 2). split; [right; by left | by left].
    + assert (Hid' : id = 1 \/ id = 2).
      { apply list_elem_of_In in Ht. simpl in Ht.
        destruct Ht as [<-|[<-|[]]]; simpl in Hid;
          apply list_elem_of_singleton in Hid; lia. }
      exists (Span 1 2). split; [right; by left|].
      simpl. apply range_elem. lia.
  - vm_compute. reflexivity.
  - vm_compute. reflexivity.
Defined.

(** ** Truncation and tail together *)

Lemma single_cut_selected (self : AtlasWriter) (seg pos : Z) (n : option Z)
    (selected_indices : list Z) (e : Z) :
  seg ∈ selected_indices ->
  linear_end self selected_indices seg pos = Ok e ->
  single_cut self seg pos n selected_indices = Ok (None, Some e, n).
Proof.
  intros Hin He. unfold single_cut.
  rewrite (mem_true _ _ Hin), He. reflexivity.
Qed.

Lemma reads_truncation_nonempty (truncation : Py.str) (f : truncation_form) :
  reads_truncation truncation f -> truncation <> [].
Proof.
  intros Hr ->.
  destruct f; simpl in Hr;
    [destruct Hr as [H _] | destruct Hr as (_ & H & _)
     | destruct Hr as (_ & _ & H)];
    vm_compute in H; discriminate H.
Qed.

Lemma given_nonempty (s : Py.str) : s <> [] -> given (Some s) = Some s.
Proof. destruct s; [done | reflexivity]. Qed.

Lemma parse_selection_nonempty (self : AtlasWriter) (selection : Py.str)
    (ids : list Z) :
  parse_segment_selection self selection = Ok ids -> selection <> [].
Proof. intros H ->. rewrite parse_empty_selection in H. discriminate. Qed.

(** X6. A single cut with a count, [seg:pos/N], given alone: when the cut
    offset lies in the combined sequence, the result is the sequence up to
    the cut followed by [N] times A.  The tail is placed at the end of the
    truncated sequence, so its own bound test cannot fail. *)
Theorem single_cut_with_count (self : AtlasWriter) (selection truncation : Py.str)
    (ids : list Z) (seg pos n cut : Z) :
  parse_segment_selection self selection = Ok ids ->
  present self ids ->
  reads_truncation truncation (SingleCut seg pos (Some n)) ->
  seg ∈ ids ->
  linear_end self ids seg pos = Ok cut ->
  0 < cut <= Py.len (concatenation self ids) ->
  exists header,
    main self (Some selection) (Some truncation) None
    = Ok (header,
          take (Z.to_nat cut) (concatenation self ids)
            ++ replicate (Z.to_nat n) "A"%char).
Proof.
  intros Hsel Hp Hr Hin Hcut Hrange.
  assert (Hne : ids <> []) by (intros ->; by apply not_elem_of_nil in Hin).
  assert (Ht : truncate (concatenation self ids) None (Some cut)
               = Ok (take (Z.to_nat cut) (concatenation self ids))).
  { rewrite (truncate_valid _ None (Some cut)); simpl; try lia.
    by rewrite Z.sub_0_r. }
  destruct (combine_truncated self ids None (Some cut) _ Hp Hne Ht)
    as (r & Hr' & Hseq).
  assert (Hlen : Py.len (c_sequence r) = cut).
  { rewrite Hseq. unfold Py.len in *. rewrite length_take. lia. }
  eexists. unfold main.
  rewrite (given_nonempty _ (parse_selection_nonempty _ _ _ Hsel)).
  rewrite (given_nonempty _ (reads_truncation_nonempty _ _ Hr)).
  rewrite Hsel. cbn [mbind outcome_bind given].
  rewrite (parse_truncation_single _ _ _ _ _ _ Hr).
  rewrite (single_cut_selected _ _ _ _ _ _ Hin Hcut).
  cbn [mbind outcome_bind]. unfold combine_segments.
  rewrite combine_tail_last, Hr'. cbn [mbind outcome_bind].
  rewrite apply_poly_a_within by lia. cbn [mbind outcome_bind c_sequence].
  rewrite slice_prefix by lia. rewrite Hseq.
  rewrite take_take, Nat.min_id. reflexivity.
Qed.

Lemma reads_single_1_8_3 :
  reads_truncation (Py.lit "1:8/3") (SingleCut 1 8 (Some 3)).
Proof. repeat split. eexists. reflexivity. Qed.

Lemma single_cut_with_count_witness :
  exists header,
    main two_segments (Some (Py.lit "1,2")) (Some (Py.lit "1:8/3")) None
    = Ok (header,
          take (Z.to_nat 8) (concatenation two_segments [1; 2])
            ++ replicate (Z.to_nat 3) "A"%char).
Proof.
  apply (single_cut_with_count two_segments (Py.lit "1,2") (Py.lit "1:8/3")
           [1; 2] 1 8 3 8).
  - vm_compute. reflexivity.
  - apply two_segments_present.
  - apply reads_single_1_8_3.
  - apply list_elem_of_In. left. reflexivity.
  - reflexivity.
  - vm_compute. split; [reflexivity | discriminate].
Defined.

(** X7. A tail directive given with [--polyA] overrides the count written
    in the truncation expression: two single cuts at the same position
    that differ only in their count give the same result when a tail
    directive is present. *)
Theorem explicit_tail_overrides_count (self : AtlasWriter)
    (selection : option Py.str) (truncation1 truncation2 polyA : Py.str)
    (seg pos : Z) (n1 n2 : option Z) :
  reads_truncation truncation1 (SingleCut seg pos n1) ->
  reads_truncation truncation2 (SingleCut seg pos n2) ->
  polyA <> [] ->
  main self selection (Some truncation1) (Some polyA)
  = main self selection (Some truncation2) (Some polyA).
Proof.
  intros H1 H2 Hp. unfold main.
  destruct (given selection) as [sel|]; [|reflexivity].
  rewrite (given_nonempty _ (reads_truncation_nonempty _ _ H1)).
  rewrite (given_nonempty _ (reads_truncation_nonempty _ _ H2)).
  rewrite (given_nonempty _ Hp).
  destruct (parse_segment_selection self sel) as [ids| |]; [|reflexivity..].
  cbn [mbind outcome_bind].
  rewrite (parse_truncation_single _ _ _ _ _ _ H1).
  rewrite (parse_truncation_single _ _ _ _ _ _ H2).
  unfold single_cut. destruct (negb (Py.mem seg ids)); [reflexivity|].
  destruct (linear_end self ids seg pos); reflexivity.
Qed.

Lemma explicit_tail_overrides_count_witness :
  main two_segments (Some (Py.lit "1,2")) (Some (Py.lit "2:3/4"))
    (Some (Py.lit "5/2"))
  = main two_segments (Some (Py.lit "1,2")) (Some (Py.lit "2:3/"))
      (Some (Py.lit "5/2")).
Proof.
  apply (explicit_tail_overrides_count two_segments (Some (Py.lit "1,2"))
           (Py.lit "2:3/4") (Py.lit "2:3/") (Py.lit "5/2") 2 3
           (Some 4) None reads_single_2_3_4 reads_single_2_3).
  discriminate.
Defined.

(** X8. The cut offset of a tail is measured on the truncated sequence:
    after a valid window from [keepStart] to [keepEndExclusive], the tail
    step fails exactly when the cut offset exceeds
    [keepEndExclusive - keepStart], and for an offset between 0 and that
    length the result is the first [cutOffset] bases of the window followed
    by the tail. *)
Theorem tail_offset_in_truncated (self : AtlasWriter) (indices : list Z)
    (keepStart keepEndExclusive cutOffset tailLength : Z) :
  present self indices ->
  indices <> [] ->
  0 <= keepStart ->
  keepStart < keepEndExclusive ->
  keepEndExclusive <= Py.len (concatenation self indices) ->
  (combine_segments self indices (Some keepStart) (Some keepEndExclusive)
     (Some cutOffset) (Some tailLength) = Exit PolyABeyondCombined
   <-> keepEndExclusive - keepStart < cutOffset)
  /\ (0 <= cutOffset <= keepEndExclusive - keepStart ->
      exists header,
        combine_segments self indices (Some keepStart) (Some keepEndExclusive)
          (Some cutOffset) (Some tailLength)
        = Ok (header,
              take (Z.to_nat cutOffset)
                (drop (Z.to_nat keepStart) (concatenation self indices))
                ++ replicate (Z.to_nat tailLength) "A"%char)).
Proof.
  intros Hp Hne Hs Hse He.
  destruct (combine_window self indices keepStart keepEndExclusive
              Hp Hne Hs Hse He) as (r & Hr & Hseq & _).
  assert (Hlen : Py.len (c_sequence r) = keepEndExclusive - keepStart).
  { rewrite Hseq. apply window_length; lia. }
  unfold combine_segments. rewrite combine_tail_last, Hr.
  cbn [mbind outcome_bind]. split; [split|].
  - intros H. destruct (Z.lt_ge_cases (keepEndExclusive - keepStart) cutOffset)
      as [?|Hle]; [done|].
    rewrite apply_poly_a_within in H by lia. discriminate.
  - intros Hlt. unfold apply_poly_a.
    destruct (Z.gtb_spec cutOffset (Py.len (c_sequence r))); [reflexivity | lia].
  - intros Hcut. eexists.
    rewrite apply_poly_a_within by lia. cbn [mbind outcome_bind].
    rewrite slice_prefix by lia. rewrite Hseq, take_take.
    replace (Z.to_nat cutOffset `min` Z.to_nat (keepEndExclusive - keepStart))%nat
      with (Z.to_nat cutOffset) by lia.
    reflexivity.
Qed.

Lemma tail_offset_in_truncated_witness :
  (combine_segments two_segments [1; 2] (Some 14) (Some 20) (Some 10) (Some 2)
   = Exit PolyABeyondCombined
   <-> 20 - 14 < 10)
  /\ (0 <= 10 <= 20 - 14 ->
      exists header,
        combine_segments two_segments [1; 2] (Some 14) (Some 20)
          (Some 10) (Some 2)
        = Ok (header,
              take (Z.to_nat 10)
                (drop (Z.to_nat 14) (concatenation two_segments [1; 2]))
                ++ replicate (Z.to_nat 2) "A"%char)).
Proof.
  apply (tail_offset_in_truncated two_segments [1; 2] 14 20 10 2).
  - apply two_segments_present.
  - discriminate.
  - lia.
  - lia.
  - vm_compute. discriminate.
Defined.

(** ** One text, two options *)

Lemma poly_a_loop_ascending (self : AtlasWriter) (pre post : list Z)
    (k pos acc : Z) :
  ascending (pre ++ k :: post) ->
  present self pre ->
  poly_a_loop self (pre ++ k :: post) k pos acc
  = Ok (acc + Py.len (concatenation self pre) + pos).
Proof.
  intros Hasc Hp. apply StronglySorted_app in Hasc as (Hlt & _ & _).
  revert acc. induction Hp as [|i pre Hi _ IH]; intros acc.
  - simpl. destruct (Z.ltb_spec k k); [lia|]. rewrite Z.eqb_refl.
    f_equal. unfold Py.len. simpl. lia.
  - simpl. assert (i < k) by (apply Hlt; by left).
    destruct (Z.ltb_spec i k); [|lia].
    rewrite (seq_len_present _ _ Hi). cbn [mbind outcome_bind].
    rewrite IH.
    + f_equal. rewrite concatenation_cons, len_app. lia.
    + intros x1 x2 H1 H2. apply Hlt; [by right | done].
Qed.

Lemma concatenation_bound (self : AtlasWriter) (pre post : list Z) (k : Z) :
  Py.len (concatenation self pre) + Py.len (content self k)
  <= Py.len (concatenation self (pre ++ k :: post)).
Proof.
  rewrite concatenation_app, concatenation_cons, !len_app.
  pose proof (len_nonneg (concatenation self post)). lia.
Qed.

(** X9. The text [seg:pos/N], with [pos] a base of the selected segment
    [seg], means the same cut under both options: given as [--truncate] or
    given as [--polyA] it yields the same final sequence, the combined
    sequence up to that base followed by [N] times A (the headers
    differ). *)
Theorem same_text_same_sequence (self : AtlasWriter)
    (selection text : Py.str) (ids : list Z) (seg pos n : Z) (sk : segment) :
  parse_segment_selection self selection = Ok ids ->
  present self ids ->
  seg ∈ ids ->
  segment_data self !! seg = Some sk ->
  1 <= pos <= Py.len (sequence sk) ->
  reads_truncation text (SingleCut seg pos (Some n)) ->
  reads_tail text (SegmentTail seg pos n) ->
  exists header1 header2 cut,
    linear_end self ids seg pos = Ok cut
    /\ main self (Some selection) (Some text) None
       = Ok (header1,
             take (Z.to_nat cut) (concatenation self ids)
               ++ replicate (Z.to_nat n) "A"%char)
    /\ main self (Some selection) None (Some text)
       = Ok (header2,
             take (Z.to_nat cut) (concatenation self ids)
               ++ replicate (Z.to_nat n) "A"%char).
Proof.
  intros Hsel Hp Hin Hk Hpos Hrt Hrp.
  assert (Hasc : ascending ids).
  { apply parse_segment_selection_ok in Hsel as (l & -> & _).
    apply sorted_set_ascending. }
  assert (Hne : ids <> []) by (intros ->; by apply not_elem_of_nil in Hin).
  pose proof Hin as Hin'.
  apply list_elem_of_split in Hin' as (pre & post & Hids).
  set (cut := Py.len (concatenation self pre) + pos).
  assert (Hcut : linear_end self ids seg pos = Ok cut).
  { subst ids. unfold linear_end.
    rewrite (sum_len_before_ascending _ _ _ _ Hasc (present_pre _ _ _ _ Hp)).
    reflexivity. }
  assert (Hloop : poly_a_loop self ids seg pos 0 = Ok cut).
  { subst ids.
    rewrite (poly_a_loop_ascending _ _ _ _ _ _ Hasc (present_pre _ _ _ _ Hp)).
    reflexivity. }
  assert (Hrange : 0 < cut <= Py.len (concatenation self ids)).
  { pose proof (len_nonneg (concatenation self pre)).
    pose proof (concatenation_bound self pre post seg) as Hb.
    rewrite (content_Some _ _ _ Hk), <- Hids in Hb. unfold cut. lia. }
  assert (Ht : truncate (concatenation self ids) None (Some cut)
               = Ok (take (Z.to_nat cut) (concatenation self ids))).
  { rewrite (truncate_valid _ None (Some cut)); simpl; try lia.
    by rewrite Z.sub_0_r. }
  destruct (combine_truncated self ids None (Some cut) _ Hp Hne Ht)
    as (r1 & Hr1 & Hseq1).
  destruct (combine_truncated self ids None None _ Hp Hne eq_refl)
    as (r2 & Hr2 & Hseq2).
  exists (header_of (Combined (c_accession r1) (c_start_pos r1) (c_end_pos r1)
            (c_description r1 ++ Py.lit " (with " ++ Py.str_of_int n
               ++ Py.lit " polyA tail)") [])),
    (header_of (Combined (c_accession r2) (c_start_pos r2) (c_end_pos r2)
            (c_description r2 ++ Py.lit " (with " ++ Py.str_of_int n
               ++ Py.lit " polyA tail)") [])), cut.
  split; [exact Hcut|]. split.
  - unfold main.
    rewrite (given_nonempty _ (parse_selection_nonempty _ _ _ Hsel)).
    rewrite (given_nonempty _ (reads_truncation_nonempty _ _ Hrt)).
    rewrite Hsel. cbn [mbind outcome_bind given].
    rewrite (parse_truncation_single _ _ _ _ _ _ Hrt).
    rewrite (single_cut_selected _ _ _ _ _ _ Hin Hcut).
    cbn [mbind outcome_bind]. unfold combine_segments.
    rewrite combine_tail_last, Hr1. cbn [mbind outcome_bind].
    assert (Hlen : Py.len (c_sequence r1) = cut).
    { rewrite Hseq1. unfold Py.len in *. rewrite length_take. lia. }
    rewrite apply_poly_a_within by lia. cbn [mbind outcome_bind c_sequence].
    rewrite slice_prefix by lia. rewrite Hseq1.
    rewrite take_take, Nat.min_id. reflexivity.
  - unfold main.
    rewrite (given_nonempty _ (parse_selection_nonempty _ _ _ Hsel)).
    rewrite (given_nonempty _ (reads_truncation_nonempty _ _ Hrt)).
    rewrite Hsel. cbn [mbind outcome_bind given].
    rewrite (parse_poly_a_segment _ _ _ _ _ _ Hrp).
    rewrite (mem_true _ _ Hin), (seq_len_Some _ _ _ Hk).
    cbn [mbind outcome_bind negb].
    destruct (Z.gtb_spec pos (Py.len (sequence sk))); [lia|].
    rewrite Hloop. cbn [mbind outcome_bind]. unfold combine_segments.
    rewrite combine_tail_last, Hr2. cbn [mbind outcome_bind].
    rewrite Hseq2.
    rewrite apply_poly_a_within by lia. cbn [mbind outcome_bind c_sequence].
    rewrite slice_prefix by lia. reflexivity.
Qed.

Lemma reads_tail_1_8_3 : reads_tail (Py.lit "1:8/3") (SegmentTail 1 8 3).
Proof. eexists _, _. repeat split. Qed.

Lemma same_text_same_sequence_witness :
  exists header1 header2 cut,
    linear_end two_segments [1; 2] 1 8 = Ok cut
    /\ main two_segments (Some (Py.lit "1,2")) (Some (Py.lit "1:8/3")) None
       = Ok (header1,
             take (Z.to_nat cut) (concatenation two_segments [1; 2])
               ++ replicate (Z.to_nat 3) "A"%char)
    /\ main two_segments (Some (Py.lit "1,2")) None (Some (Py.lit "1:8/3"))
       = Ok (header2,
             take (Z.to_nat cut) (concatenation two_segments [1; 2])
               ++ replicate (Z.to_nat 3) "A"%char).
Proof.
  apply (same_text_same_sequence two_segments (Py.lit "1,2") (Py.lit "1:8/3")
           [1; 2] 1 8 3 seg_1_10).
  - vm_compute. reflexivity.
  - apply two_segments_present.
  - apply list_elem_of_In. left. reflexivity.
  - reflexivity.
  - vm_compute. split; discriminate.
  - apply reads_single_1_8_3.
  - apply reads_tail_1_8_3.
Defined.

Lemma reads_tail_5_neg3 : reads_tail (Py.lit "5/-3") (GlobalTail 5 (-3)).
Proof. eexists _, _. repeat split. Qed.

(** X10. A tail length that is zero or negative is accepted and appends
    nothing: the directive [pos/N] with [N <= 0] only cuts the combined
    sequence at [pos]. *)
Theorem nonpositive_tail_only_cuts (self : AtlasWriter)
    (selection polyA : Py.str) (ids : list Z) (pos n : Z) :
  parse_segment_selection self selection = Ok ids ->
  present self ids ->
  reads_tail polyA (GlobalTail pos n) ->
  n <= 0 ->
  0 <= pos <= Py.len (concatenation self ids) ->
  exists header,
    main self (Some selection) None (Some polyA)
    = Ok (header, take (Z.to_nat pos) (concatenation self ids)).
Proof.
  intros Hsel Hp Hr Hn Hpos.
  assert (Hne : ids <> []).
  { apply parse_segment_selection_ok in Hsel as (l & -> & Hl & _).
    destruct l as [|x l]; [done|]. intros Hnil.
    assert (Hx : x ∈ Py.sorted_set (x :: l))
      by (apply sorted_set_elem; by left).
    rewrite Hnil in Hx. by apply not_elem_of_nil in Hx. }
  assert (HpolyA : polyA <> []).
  { intros ->. destruct Hr as (a & b & Hs & _). discriminate. }
  destruct (combine_truncated self ids None None _ Hp Hne eq_refl)
    as (r & Hr' & Hseq).
  eexists. unfold main.
  rewrite (given_nonempty _ (parse_selection_nonempty _ _ _ Hsel)).
  rewrite (given_nonempty _ HpolyA).
  rewrite Hsel. cbn [mbind outcome_bind given].
  rewrite (parse_poly_a_global _ _ _ _ _ Hr). cbn [mbind outcome_bind].
  unfold combine_segments. rewrite combine_tail_last, Hr'.
  cbn [mbind outcome_bind]. rewrite Hseq.
  rewrite apply_poly_a_within by lia. cbn [mbind outcome_bind c_sequence].
  rewrite slice_prefix by lia. unfold Py.repeat_char.
  replace (Z.to_nat n) with 0%nat by lia. simpl. by rewrite app_nil_r.
Qed.

Lemma nonpositive_tail_only_cuts_witness :
  exists header,
    main two_segments (Some (Py.lit "1,2")) None (Some (Py.lit "5/-3"))
    = Ok (header, take (Z.to_nat 5) (concatenation two_segments [1; 2])).
Proof.
  apply (nonpositive_tail_only_cuts two_segments (Py.lit "1,2")
           (Py.lit "5/-3") [1; 2] 5 (-3)).
  - vm_compute. reflexivity.
  - apply two_segments_present.
  - apply reads_tail_5_neg3.
  - lia.
  - vm_compute. split; discriminate.
Defined.

(** ** Ids and the size of the catalog *)

Lemma sorted_set_singleton (j : Z) : Py.sorted_set [j] = [j].
Proof.
  unfold Py.sorted_set. simpl. rewrite union_empty_r_L, elements_singleton.
  reflexivity.
Qed.

Lemma parse_single_id (self : AtlasWriter) (j : Z) :
  0 <= j ->
  parse_segment_selection self (Py.str_of_int j)
  = if (j <? 1) || (j >? Py.len (segments self))
    then Exit InvalidSegmentIndex else Ok [j].
Proof.
  intros Hj. unfold parse_segment_selection.
  rewrite split_without by (apply str_of_int_contains; [done | separator]).
  simpl. unfold selection_part.
  rewrite str_of_int_contains by (done || separator).
  rewrite int_str_of_int by done.
  destruct ((j <? 1) || (j >? Py.len (segments self))); [reflexivity|].
  simpl. by rewrite sorted_set_singleton.
Qed.

Lemma str_of_int_nonempty (j : Z) : 0 <= j -> Py.str_of_int j <> [].
Proof.
  intros (d & Hd & -> & _)%str_of_int_nonneg. by apply uint_chars_nonempty.
Qed.

(** X11. A selection is checked against the number of loaded segments,
    not against their ids.  An id between 1 and [len(self.segments)]
    without an entry passes the parser and makes the run end in
    [KeyError]; an id above [len(self.segments)] is rejected as an invalid
    segment index even when the catalog has an entry for it. *)
Theorem selection_checked_against_count (self : AtlasWriter) (j k : Z)
    (s : segment) :
  1 <= j <= Py.len (segments self) ->
  segment_data self !! j = None ->
  Py.len (segments self) < k ->
  segment_data self !! k = Some s ->
  main self (Some (Py.str_of_int j)) None None = Raise (KeyError j)
  /\ main self (Some (Py.str_of_int k)) None None = Exit InvalidSegmentIndex.
Proof.
  intros Hj Hnone Hk Hs. pose proof (len_nonneg (segments self)).
  unfold main. rewrite !given_nonempty by (apply str_of_int_nonempty; lia).
  rewrite !parse_single_id by lia. split.
  - destruct (Z.ltb_spec j 1); [lia|].
    destruct (Z.gtb_spec j (Py.len (segments self))); [lia|].
    cbn [orb mbind outcome_bind given]. unfold combine_segments, combine.
    rewrite (data_None _ _ Hnone). reflexivity.
  - destruct (Z.gtb_spec k (Py.len (segments self))); [|lia].
    rewrite orb_true_r. reflexivity.
Qed.

Lemma selection_checked_against_count_witness :
  main gap_catalog (Some (Py.str_of_int 2)) None None = Raise (KeyError 2)
  /\ main gap_catalog (Some (Py.str_of_int 3)) None None
     = Exit InvalidSegmentIndex.
Proof.
  apply (selection_checked_against_count gap_catalog 2 3 seg_11_30).
  - vm_compute. split; discriminate.
  - reflexivity.
  - reflexivity.
  - reflexivity.
Defined.

(** ** The lines of [format_fasta] *)

Lemma slice_clamped {A} (s : list A) (a b : Z) :
  0 <= a -> a <= b ->
  Py.slice s (Some a) (Some b)
  = take (Z.to_nat (b - a)) (drop (Z.to_nat a) s).
Proof.
  intros Ha Hab. unfold Py.slice, Py.slice_bound. simpl.
  destruct (Z.ltb_spec a 0); [lia|]. destruct (Z.ltb_spec b 0); [lia|].
  pose proof (len_nonneg s) as Hn. unfold Py.len in *.
  destruct (Z.le_gt_cases b (Z.of_nat (length s))).
  { rewrite !Z.min_l by lia. reflexivity. }
  destruct (Z.le_gt_cases a (Z.of_nat (length s))).
  - rewrite (Z.min_l a), (Z.min_r b) by lia.
    rewrite !take_ge; [reflexivity | |]; rewrite length_drop; lia.
  - rewrite !Z.min_r by lia. rewrite !drop_ge by lia. by rewrite !take_nil.
Qed.

Lemma format_fasta_lines (header sequence : Py.str) (width : Z) :
  0 < width ->
  format_fasta header sequence width
  = Some (header ++ [newline]
            ++ concat ((fun l => l ++ [newline])
                         <$> wrapped_lines sequence width)).
Proof.
  intros Hw. unfold format_fasta, range_from_zero, wrapped_lines.
  destruct (Z.eqb_spec width 0); [lia|].
  destruct (Z.ltb_spec 0 width); [|lia]. simpl.
  rewrite <- !list_fmap_compose. reflexivity.
Qed.

Lemma wrapped_prefix (sequence : Py.str) (width : Z) (m : nat) :
  0 < width ->
  concat ((fun k => Py.slice sequence (Some (k * width))
                      (Some (k * width + width)))
            <$> seqZ 0 (Z.of_nat m))
  = take (m * Z.to_nat width) sequence.
Proof.
  intros Hw. induction m as [|m IH].
  - reflexivity.
  - rewrite seqZ_S, fmap_app, concat_app, IH. simpl.
    rewrite app_nil_r, slice_clamped by lia.
    replace (Z.to_nat ((0 + Z.of_nat m) * width))
      with (m * Z.to_nat width)%nat by lia.
    replace (Z.to_nat ((0 + Z.of_nat m) * width + width
                       - (0 + Z.of_nat m) * width))
      with (Z.to_nat width) by lia.
    rewrite take_take_drop. f_equal. lia.
Qed.

Lemma line_count_bounds (n width : Z) :
  0 <= n -> 0 < width ->
  let m := (n + width - 1) / width in
  0 <= m /\ (m - 1) * width < n <= m * width.
Proof.
  intros Hn Hw m.
  pose proof (Z.div_mod (n + width - 1) width ltac:(lia)) as Hdm.
  pose proof (Z.mod_pos_bound (n + width - 1) width Hw) as Hmod.
  fold m in Hdm. nia.
Qed.

Lemma wrapped_lines_concat (sequence : Py.str) (width : Z) :
  0 < width -> concat (wrapped_lines sequence width) = sequence.
Proof.
  intros Hw. unfold wrapped_lines.
  destruct (line_count_bounds (Py.len sequence) width (len_nonneg _) Hw)
    as [Hm Hb].
  set (m := (Py.len sequence + width - 1) / width) in *.
  rewrite <- (Z2Nat.id m) by lia.
  rewrite wrapped_prefix by exact Hw.
  apply take_ge. unfold Py.len in Hb. nia.
Qed.

Lemma wrapped_lines_length (sequence : Py.str) (width : Z) :
  0 < width ->
  Z.of_nat (length (wrapped_lines sequence width))
  = (Py.len sequence + width - 1) / width.
Proof.
  intros Hw. unfold wrapped_lines. rewrite length_fmap, length_seqZ.
  destruct (line_count_bounds (Py.len sequence) width (len_nonneg _) Hw).
  lia.
Qed.

Lemma wrapped_line_size (sequence : Py.str) (width : Z) (k : nat)
    (line : Py.str) :
  0 < width ->
  wrapped_lines sequence width !! k = Some line ->
  0 < Py.len line <= width
  /\ ((S k < length (wrapped_lines sequence width))%nat ->
      Py.len line = width).
Proof.
  intros Hw Hk.
  pose proof (wrapped_lines_length sequence width Hw) as Hlen.
  destruct (line_count_bounds (Py.len sequence) width (len_nonneg _) Hw)
    as [Hm Hb].
  unfold wrapped_lines in Hk. rewrite list_lookup_fmap in Hk.
  destruct (seqZ 0 _ !! k) as [i|] eqn:Hi; [|discriminate].
  apply lookup_seqZ in Hi as [-> Hi]. injection Hk as <-.
  rewrite slice_clamped by lia. unfold Py.len in *.
  rewrite length_take, length_drop. split; [nia|].
  intros Hlast. nia.
Qed.

(** X12. For a positive width, [format_fasta] writes the header line and
    then the sequence cut into lines: the lines put end to end are the
    sequence, there are [ceil(len / width)] of them, none is empty or
    longer than [width], and every line but the last has exactly [width]
    characters. *)
Theorem format_fasta_wraps (header sequence : Py.str) (width : Z) :
  0 < width ->
  exists lines,
    format_fasta header sequence width
    = Some (header ++ [newline]
              ++ concat ((fun l => l ++ [newline]) <$> lines))
    /\ concat lines = sequence
    /\ Z.of_nat (length lines) = (Py.len sequence + width - 1) / width
    /\ forall (k : nat) (line : Py.str),
         lines !! k = Some line ->
         0 < Py.len line <= width
         /\ ((S k < length lines)%nat -> Py.len line = width).
Proof.
  intros Hw. exists (wrapped_lines sequence width).
  split; [by apply format_fasta_lines|].
  split; [by apply wrapped_lines_concat|].
  split; [by apply wrapped_lines_length|].
  intros k line. by apply wrapped_line_size.
Qed.

Lemma format_fasta_wraps_witness :
  exists lines,
    format_fasta (Py.lit ">h") (Py.lit "ACGTACGTAC") 4
    = Some (Py.lit ">h" ++ [newline]
              ++ concat ((fun l => l ++ [newline]) <$> lines))
    /\ concat lines = Py.lit "ACGTACGTAC"
    /\ Z.of_nat (length lines) = (Py.len (Py.lit "ACGTACGTAC") + 4 - 1) / 4
    /\ forall (k : nat) (line : Py.str),
         lines !! k = Some line ->
         0 < Py.len line <= 4
         /\ ((S k < length lines)%nat -> Py.len line = 4).
Proof.
  apply (format_fasta_wraps (Py.lit ">h") (Py.lit "ACGTACGTAC") 4). lia.
Defined.

Example format_fasta_10_by_4 :
  format_fasta (Py.lit ">h") (Py.lit "ACGTACGTAC") 4
  = Some (Py.lit ">h" ++ [newline] ++ Py.lit "ACGT" ++ [newline]
            ++ Py.lit "ACGT" ++ [newline] ++ Py.lit "AC" ++ [newline]).
Proof. vm_compute. reflexivity. Qed.

(** ** What [load_segments] leaves in the catalog *)

Lemma tuple_of_inj (i j : Z) (s t : segment) :
  tuple_of i s = tuple_of j t -> i = j /\ s = t.
Proof. destruct s, t. unfold tuple_of. simpl. intros [=]. by subst. Qed.

Lemma load_invariant_initial (first : Z) :
  load_invariant first first (Loading [] ∅ []).
Proof.
  split; simpl.
  - intros k s. rewrite lookup_empty. split; [done|].
    intros H. by apply not_elem_of_nil in H.
  - intros k [s Hs]. by rewrite lookup_empty in Hs.
  - reflexivity.
  - unfold Py.len. simpl. lia.
  - lia.
Qed.

Lemma load_invariant_stored (first i : Z) (st : loading) (s : segment) :
  load_invariant first i st ->
  load_invariant first (i + 1)
    (Loading (l_segments st ++ [tuple_of i s]) (<[i := s]> (l_data st))
       (l_warnings st)).
Proof.
  intros [Hsame Hkeys Hsize Hcount Hfull].
  assert (Hfresh : l_data st !! i = None).
  { destruct (l_data st !! i) eqn:Hi; [|done].
    assert (first <= i < i) by (apply Hkeys; by eexists). lia. }
  split; simpl.
  - intros k t. rewrite elem_of_app, list_elem_of_singleton, <- Hsame.
    destruct (decide (k = i)) as [->|Hne].
    + rewrite lookup_insert_eq. split.
      * intros [= ->]. by right.
      * intros [Hold | Heq]; [congruence|].
        apply tuple_of_inj in Heq as [_ ->]. done.
    + rewrite lookup_insert_ne by done. split; [by left|].
      intros [Hold | Heq]; [done|].
      apply tuple_of_inj in Heq as [-> _]. done.
  - intros k. destruct (decide (k = i)) as [->|Hne].
    + intros _. assert (first <= i).
      { pose proof (len_nonneg (l_segments st)).
        pose proof (len_nonneg (l_warnings st)). lia. }
      lia.
    + rewrite lookup_insert_ne by done. intros Hk%Hkeys. lia.
  - rewrite map_size_insert_None by done. rewrite length_app. simpl. lia.
  - rewrite len_app. unfold Py.len at 2. simpl. lia.
  - intros Hw k Hk. destruct (decide (k = i)) as [->|Hne].
    + rewrite lookup_insert_eq. by eexists.
    + rewrite lookup_insert_ne by done. apply Hfull; [done | lia].
Qed.

Lemma load_invariant_skipped (first i : Z) (st : loading) (header : Py.str) :
  load_invariant first i st ->
  load_invariant first (i + 1)
    (Loading (l_segments st) (l_data st) (l_warnings st ++ [header])).
Proof.
  intros [Hsame Hkeys Hsize Hcount Hfull]. split; simpl.
  - exact Hsame.
  - intros k Hk%Hkeys. lia.
  - exact Hsize.
  - rewrite len_app. unfold Py.len at 3. simpl. lia.
  - intros Hw. by apply app_eq_nil in Hw as [_ ?].
Qed.

Lemma load_loop_invariant (first : Z) (entries : list (Py.str * Py.str))
    (i : Z) (st st' : loading) :
  load_invariant first i st ->
  load_loop entries i st = Some st' ->
  load_invariant first (i + Py.len entries) st'.
Proof.
  revert i st. induction entries as [|[header sequence] entries IH];
    intros i st Hinv; simpl.
  - intros [= <-]. unfold Py.len. simpl. by rewrite Z.add_0_r.
  - replace (i + Py.len ((header, sequence) :: entries))
      with (i + 1 + Py.len entries) by (unfold Py.len; simpl; lia).
    destruct (search_positions [] (str_strip header))
      as [[[accession d1] d2]|].
    + destruct (Py.int d1) as [start|]; [|discriminate]. simpl.
      destruct (Py.int d2) as [end_|]; [|discriminate]. simpl.
      apply IH.
      apply (load_invariant_stored first i st
               (Segment accession start end_ (str_strip header)
                  (str_strip (remove_newlines sequence))) Hinv).
    + apply IH. by apply load_invariant_skipped.
Qed.

Lemma insert_by_start_perm (t : Z * Py.str * Z * Z * Py.str * Py.str)
    (l : list (Z * Py.str * Z * Z * Py.str * Py.str)) :
  insert_by_start t l ≡ₚ t :: l.
Proof.
  induction l as [|u l IH]; simpl; [done|].
  destruct (start_of t <? start_of u); [done|].
  rewrite IH. apply Permutation_swap.
Qed.

Lemma insert_by_start_sorted (t : Z * Py.str * Z * Z * Py.str * Py.str)
    (l : list (Z * Py.str * Z * Z * Py.str * Py.str)) :
  StronglySorted by_start l -> StronglySorted by_start (insert_by_start t l).
Proof.
  induction 1 as [|u l Hs IH Hu]; simpl.
  - repeat constructor.
  - destruct (Z.ltb_spec (start_of t) (start_of u)).
    + constructor; [by constructor|]. constructor; [unfold by_start; lia|].
      eapply Forall_impl; [exact Hu|]. unfold by_start. simpl. lia.
    + constructor; [exact IH|]. rewrite insert_by_start_perm.
      constructor; [unfold by_start; lia | exact Hu].
Qed.

Lemma sort_by_start_from (acc l : list (Z * Py.str * Z * Z * Py.str * Py.str)) :
  StronglySorted by_start acc ->
  foldl (fun sorted t => insert_by_start t sorted) acc l ≡ₚ acc ++ l
  /\ StronglySorted by_start
       (foldl (fun sorted t => insert_by_start t sorted) acc l).
Proof.
  revert acc. induction l as [|t l IH]; intros acc Hacc; simpl.
  - by rewrite app_nil_r.
  - destruct (IH (insert_by_start t acc) (insert_by_start_sorted t acc Hacc))
      as [Hperm Hsorted].
    split; [|exact Hsorted].
    rewrite Hperm, insert_by_start_perm. simpl. apply Permutation_middle.
Qed.

Lemma sort_by_start_perm (l : list (Z * Py.str * Z * Z * Py.str * Py.str)) :
  sort_by_start l ≡ₚ l.
Proof. apply (sort_by_start_from [] l). constructor. Qed.

Lemma sort_by_start_sorted (l : list (Z * Py.str * Z * Z * Py.str * Py.str)) :
  StronglySorted by_start (sort_by_start l).
Proof. apply (sort_by_start_from [] l). constructor. Qed.

Lemma load_segments_invariant (content : Py.str) (self : AtlasWriter)
    (warnings : list Py.str) :
  load_segments content = Some (self, warnings) ->
  exists st,
    load_invariant 1 (1 + Py.len (findall_entries content)) st
    /\ segments self = sort_by_start (l_segments st)
    /\ segment_data self = l_data st
    /\ warnings = l_warnings st.
Proof.
  unfold load_segments.
  destruct (load_loop _ _ _) as [st|] eqn:Hloop; [|discriminate].
  simpl. intros [= <- <-]. exists st. split; [|done].
  eapply load_loop_invariant; [apply load_invariant_initial | exact Hloop].
Qed.

Lemma three_records_loaded :
  load_segments three_records = Some (three_records_catalog, [Py.lit ">note"]).
Proof. vm_compute. reflexivity. Qed.

(** X13. After [load_segments], [self.segments] and [self.segment_data]
    hold the same records under the same ids and have the same size; the
    ids are places in the file, between 1 and the number of records found,
    which is the number of segments kept plus the number of headers warned
    about; and [self.segments] is ordered by start position. *)
Theorem load_segments_consistent (content : Py.str) (self : AtlasWriter)
    (warnings : list Py.str) :
  load_segments content = Some (self, warnings) ->
  Z.of_nat (size (segment_data self)) = Py.len (segments self)
  /\ (forall i s,
        segment_data self !! i = Some s <-> tuple_of i s ∈ segments self)
  /\ (forall i, is_Some (segment_data self !! i) ->
                1 <= i <= Py.len (findall_entries content))
  /\ Py.len (segments self) + Py.len warnings
     = Py.len (findall_entries content)
  /\ StronglySorted by_start (segments self).
Proof.
  intros (st & [Hsame Hkeys Hsize Hcount Hfull] & -> & -> & ->)
    %load_segments_invariant.
  pose proof (sort_by_start_perm (l_segments st)) as Hperm.
  assert (Hlen : Py.len (sort_by_start (l_segments st))
                 = Py.len (l_segments st)).
  { unfold Py.len. by rewrite Hperm. }
  split; [|split; [|split; [|split]]].
  - rewrite Hlen, Hsize. reflexivity.
  - intros i s. rewrite Hperm. apply Hsame.
  - intros i Hi%Hkeys. lia.
  - rewrite Hlen. lia.
  - apply sort_by_start_sorted.
Qed.

Lemma load_segments_consistent_witness :
  Z.of_nat (size (segment_data three_records_catalog))
    = Py.len (segments three_records_catalog)
  /\ (forall i s,
        segment_data three_records_catalog !! i = Some s
        <-> tuple_of i s ∈ segments three_records_catalog)
  /\ (forall i, is_Some (segment_data three_records_catalog !! i) ->
                1 <= i <= Py.len (findall_entries three_records))
  /\ Py.len (segments three_records_catalog) + Py.len [Py.lit ">note"]
     = Py.len (findall_entries three_records)
  /\ StronglySorted by_start (segments three_records_catalog).
Proof.
  apply (load_segments_consistent three_records three_records_catalog
           [Py.lit ">note"]).
  vm_compute. reflexivity.
Defined.

(** X14. When [load_segments] warns about no header, the ids of the
    catalog are exactly the numbers from 1 to [len(self.segments)]: every
    id the selection parser can accept has an entry. *)
Theorem load_without_warning_is_full (content : Py.str) (self : AtlasWriter) :
  load_segments content = Some (self, []) ->
  forall i,
    is_Some (segment_data self !! i) <-> 1 <= i <= Py.len (segments self).
Proof.
  intros (st & [Hsame Hkeys Hsize Hcount Hfull] & -> & -> & Hw)
    %load_segments_invariant.
  pose proof (sort_by_start_perm (l_segments st)) as Hperm.
  assert (Hlen : Py.len (sort_by_start (l_segments st))
                 = Py.len (l_segments st)).
  { unfold Py.len. by rewrite Hperm. }
  symmetry in Hw. rewrite Hw in Hcount. unfold Py.len at 2 in Hcount.
  simpl in Hcount. intros i. rewrite Hlen. split.
  - intros Hi%Hkeys. lia.
  - intros Hi. apply Hfull; [done | lia].
Qed.

Lemma two_records_loaded :
  load_segments two_records = Some (two_records_catalog, []).
Proof. vm_compute. reflexivity. Qed.

Lemma load_without_warning_is_full_witness :
  (is_Some (segment_data two_records_catalog !! 2)
   <-> 1 <= 2 <= Py.len (segments two_records_catalog))
  /\ (is_Some (segment_data two_records_catalog !! 3)
      <-> 1 <= 3 <= Py.len (segments two_records_catalog)).
Proof.
  pose proof (load_without_warning_is_full two_records two_records_catalog
                two_records_loaded) as H.
  split; apply H.
Defined.

(** ** Loading what [format_fasta] wrote *)
















